(** * Spacecraft design for Jovian missions: shielding thickness and trajectory export

    A shallow embedding of the two scripts of the repository,

    - [calculate_thickness.py]: the flux-table parser and the
      fluence / shielding pipeline of [calculate_shielding];
    - [spacecraft_trajectory_propagator.py]: the fixed-stride downsampling,
      the frame composition and the SPENVIS / OEM record generation of
      [export_results_for_spenvis] and [export_to_ccsds_oem].

    Python floats are IEEE-754 binary64 values, so they are embedded as Rocq's
    primitive [float]: every arithmetic expression of the scripts is written
    with the same operations in the same order and evaluates to the very same
    bits.  Functions of the Python runtime and of numpy that the scripts call
    but do not define ([float()], [numpy.log], the power operator, the SPICE
    ephemeris query) are fields of a class the development is parameterised
    by. *)

From Stdlib Require Import ZArith List Floats Lia Bool Ascii String.
Import ListNotations.

Set Warnings "-inexact-float".

(** * The embedding *)

(** ** Binary64 values *)

Module F64.

Local Open Scope float_scope.

(** [x] is not a NaN: Python's [x == x]. *)
Definition ordered (x : float) : Prop := (x =? x) = true.

(** Python's [float(n)] for an integer [n]: round to nearest, ties to even. *)
Definition of_Z (n : Z) : float := SF2Prim (binary_normalize prec emax n 0 false).

End F64.

(** ** The Python runtime the scripts run on *)

Module Py.

(** A text string, as the list of its Unicode code points. *)
Definition char := N.
Definition str := list char.

(** A number passed as [mission_duration_days]: the default is the [int] 30,
    and a [float] is accepted as well.  An [int] is unbounded and prints at
    any size (the limit an interpreter may put on the digits of an integer it
    turns into text is a setting of that interpreter and is left out). *)
Inductive num :=
| Int (n : Z)
| Float (x : float).

(** The exceptions the scripts can meet; [OSError] stands for the other
    failures of opening or reading a file. *)
Inductive exn :=
| FileNotFoundError
| OSError
| ValueError
| IndexError
| OverflowError.

(** The value a number takes as the scalar of a float64 column operation.
    A float is taken as it is.  An integer is converted as [float(n)]
    converts it: to the nearest binary64 value, and with [OverflowError]
    when that value is not finite. *)
Definition to_float (a : num) : exn + float :=
  match a with
  | Int n =>
      let x := F64.of_Z n in
      if PrimFloat.is_infinity x then inl OverflowError else inr x
  | Float x => inr x
  end.

(** The library functions the scripts call and do not define. *)
Class Runtime := {
  (** the built-in [float(s)] on a string; [None] stands for [ValueError] *)
  py_float : str -> option float;
  (** [numpy.log] *)
  np_log : float -> float;
  (** [x ** y] on floats *)
  py_pow : float -> float -> float
}.

(** [c.isspace()], which is also the class [\s] of [re] on text patterns:
    tab to carriage return (0x09-0x0d), the four separators 0x1c-0x1f, space,
    NEL (0x85), the no-break space (0xa0), the ogham space mark (0x1680), the
    spaces 0x2000-0x200a, the line and paragraph separators (0x2028, 0x2029),
    the narrow no-break space (0x202f), the medium mathematical space
    (0x205f) and the ideographic space (0x3000). *)
Definition isspace (c : char) : bool :=
  ((9 <=? c) && (c <=? 13) || (28 <=? c) && (c <=? 32)
   || (c =? 133) || (c =? 160) || (c =? 5760)
   || (8192 <=? c) && (c <=? 8202)
   || (c =? 8232) || (c =? 8233) || (c =? 8239) || (c =? 8287)
   || (c =? 12288))%N.

(** [s.lstrip()], [s.rstrip()] and [s.strip()]. *)
Fixpoint lstrip (s : str) : str :=
  match s with
  | [] => []
  | c :: t => if isspace c then lstrip t else s
  end.

Definition rstrip (s : str) : str := rev (lstrip (rev s)).

Definition strip (s : str) : str := rstrip (lstrip s).

(** [xs[::k]]: the elements at indices 0, k, 2k, ...  [skip] counts the
    elements still to pass over before the next one is taken.  A step of
    zero raises [ValueError]. *)
Fixpoint slice_from {A} (k skip : nat) (xs : list A) : list A :=
  match xs with
  | [] => []
  | x :: t =>
      match skip with
      | O => x :: slice_from k (k - 1) t
      | S s => slice_from k s t
      end
  end.

Definition slice_step {A} (xs : list A) (k : nat) : exn + list A :=
  match k with
  | O => inl ValueError
  | S _ => inr (slice_from k 0 xs)
  end.

End Py.

(** ** [calculate_thickness.py] *)

Module CalculateThickness.

Import Py.
Local Open Scope float_scope.

(** *** Data *)

(** A row [[energy, flux_electron]] of [valid_rows], that is a row of the
    data frame with the columns ["Energy_MeV"] and ["ElectronFlux"]. *)
Record FluxRow := {
  Energy_MeV : float;
  ElectronFlux : float
}.

(** The frame after the column ["ElectronFluence"] is added. *)
Record FluenceRow := {
  flux_row :> FluxRow;
  ElectronFluence : float
}.

(** [target_data] after the columns ["Shielding_g_cm2"] and
    ["Al_Thickness_mm"] are added. *)
Record ShieldingRow := {
  fluence_row :> FluenceRow;
  Shielding_g_cm2 : float;
  Al_Thickness_mm : float
}.

(** What a run prints and saves, in order. *)
Inductive event :=
| print_starting (mission_duration_days : num)
| print_reading (n_lines : nat)
| print_no_data
| print_parsed (n_rows : nat)
| print_not_found (data_file : string)
| print_ensure_folder
| print_max_hazard (max_hazard_energy : float)
| print_raw_thickness (design_thickness : float)
| print_recommended (final_thickness : float)
| savefig (curve : list (float * float)) (axhline : float)
| print_plot_saved.

(** How a call ends: [return v] ([None] when the body falls off its end) or
    an exception that leaves the function. *)
Inductive outcome :=
| Return (v : option float)
| Raise (e : exn).

(** *** The line scanner *)

(** The character class [[,\s]]; the comma is the code point 44. *)
Definition is_sep (c : char) : bool := (c =? 44)%N || isspace c.

(** [re.split(r'[,\s]+', s)]: the pieces of [s] between the maximal runs of
    separators, the empty pieces before a leading and after a trailing run
    included.  [in_sep] tells that the previous character belongs to the run
    being matched. *)
Fixpoint re_split_from (in_sep : bool) (s : str) : list str :=
  match s with
  | [] => [[]]
  | c :: t =>
      if is_sep c then
        if in_sep then re_split_from true t else [] :: re_split_from true t
      else
        match re_split_from false t with
        | p :: ps => (c :: p) :: ps
        | [] => [[c]]
        end
  end.

Definition re_split (s : str) : list str := re_split_from false s.

(** The truth value of a string: it is not empty. *)
Definition truthy (p : str) : bool :=
  match p with
  | [] => false
  | _ :: _ => true
  end.

(** [parts] as it stands after the comprehension [[p for p in parts if p]]. *)
Definition parts_of (line : str) : list str :=
  filter truthy (re_split (strip line)).

Section Pipeline.

Context `{RT : Runtime}.

(** The body of the scanning loop for one line: the rows it appends to
    [valid_rows].  A [ValueError] of either conversion is caught and the
    loop goes on to the next line. *)
Definition scan_line (line : str) : list FluxRow :=
  let parts := parts_of line in
  if (2 <=? List.length parts)%nat then
    match py_float (nth 0 parts []) with
    | None => []
    | Some energy =>
        match py_float (nth 1 parts []) with
        | None => []
        | Some flux_electron =>
            [ {| Energy_MeV := energy; ElectronFlux := flux_electron |} ]
        end
    end
  else [].

Definition scan_lines (lines : list str) : list FluxRow :=
  flat_map scan_line lines.

(** *** Fluence and shielding *)

(** [mission_duration_days * 24 * 3600], in the arithmetic of the argument. *)
Definition seconds_in_mission (mission_duration_days : num) : num :=
  match mission_duration_days with
  | Int n => Int (n * 24 * 3600)
  | Float x => Float (x * 24 * 3600)
  end.

(** [data['ElectronFluence'] = data['ElectronFlux'] * seconds_in_mission],
    for the float [seconds] that [seconds_in_mission] is converted to. *)
Definition add_fluence (seconds : float) (rows : list FluxRow) : list FluenceRow :=
  map (fun r => {| flux_row := r;
                   ElectronFluence := ElectronFlux r * seconds |}) rows.

(** [data[data['Energy_MeV'] >= 0.04]]. *)
Definition energy_filter (data : list FluenceRow) : list FluenceRow :=
  filter (fun r : FluenceRow => 0.04 <=? Energy_MeV r) data.

(** The empirical range [r] in g/cm2 for one energy (the body of the loop
    over [target_data['Energy_MeV']]). *)
Definition shielding_required (e_mev : float) : float :=
  if e_mev <? 2.5 then
    if 0 <? e_mev then 0.412 * py_pow e_mev (1.265 - 0.0954 * np_log e_mev)
    else 0.0
  else 0.530 * e_mev - 0.106.

(** [(Shielding_g_cm2 / 2.70) * 10.0]. *)
Definition al_thickness_mm (r : float) : float := (r / 2.70) * 10.0.

Definition add_shielding (target : list FluenceRow) : list ShieldingRow :=
  map (fun row : FluenceRow =>
         let r := shielding_required (Energy_MeV row) in
         {| fluence_row := row;
            Shielding_g_cm2 := r;
            Al_Thickness_mm := al_thickness_mm r |}) target.

(** [target_data] as it stands when the hazard is selected, for the float
    [seconds] that the fluence column was made with. *)
Definition target_data (seconds : float) (valid_rows : list FluxRow)
  : list ShieldingRow :=
  add_shielding (energy_filter (add_fluence seconds valid_rows)).

(** *** Hazard selection *)

(** [target_data[target_data['ElectronFluence'] > 1e9]]. *)
Definition hazardous_energies (target : list ShieldingRow) : list ShieldingRow :=
  filter (fun r : ShieldingRow => 1e9 <? ElectronFluence r) target.

(** [Series.max()]: NaN entries are skipped; the result is NaN when nothing
    is left. *)
Definition fmax (a b : float) : float := if a <? b then b else a.

Definition series_max (xs : list float) : float :=
  match filter (fun x => x =? x) xs with
  | [] => nan
  | x :: t => fold_left fmax t x
  end.

(** [(max_hazard_energy, design_thickness)]; indexing [.values[0]] of an
    empty selection raises [IndexError]. *)
Definition hazard_selection (target : list ShieldingRow) : exn + float * float :=
  match hazardous_energies target with
  | [] => inr (0.5, 2.0)
  | (_ :: _) as hz =>
      let max_hazard_energy := series_max (map (fun r : ShieldingRow => Energy_MeV r) hz) in
      match filter (fun r : ShieldingRow => Energy_MeV r =? max_hazard_energy) hz with
      | [] => inl IndexError
      | r :: _ => inr (max_hazard_energy, Al_Thickness_mm r)
      end
  end.

(** The safety factor. *)
Definition final_thickness (design_thickness : float) : float :=
  design_thickness * 1.2.

(** *** The entry point *)

(** The file system as [open(data_file, 'r')] and [f.readlines()] see it:
    the lines of the file, or the exception raised. *)
Definition files := string -> exn + list str.

(** The part after the [try] block: the data frame, the hazard selection,
    the three printed results and the plot.  The multiplication of the flux
    column by [seconds_in_mission] converts the seconds to a float and raises
    what the conversion raises, before anything is printed ([valid_rows] is
    not empty when the function gets here).  The part ends by falling off the
    end of the function. *)
Definition shielding_report (mission_duration_days : num)
    (valid_rows : list FluxRow) : list event * outcome :=
  match to_float (seconds_in_mission mission_duration_days) with
  | inl e => ([], Raise e)
  | inr seconds =>
      let target := target_data seconds valid_rows in
      match hazard_selection target with
      | inl e => ([], Raise e)
      | inr (max_hazard_energy, design_thickness) =>
          let final := final_thickness design_thickness in
          ([print_max_hazard max_hazard_energy;
            print_raw_thickness design_thickness;
            print_recommended final;
            savefig (map (fun r : ShieldingRow => (Energy_MeV r, Al_Thickness_mm r))
                         target)
                    final;
            print_plot_saved],
           Return None)
      end
  end.

Definition calculate_shielding (fs : files) (data_file : string)
    (mission_duration_days : num) : list event * outcome :=
  let banner := [print_starting mission_duration_days] in
  match fs data_file with
  | inl FileNotFoundError =>
      (banner ++ [print_not_found data_file; print_ensure_folder],
       Return (Some 0.0))
  | inl e => (banner, Raise e)
  | inr lines =>
      let valid_rows := scan_lines lines in
      match valid_rows with
      | [] =>
          (banner ++ [print_reading (List.length lines); print_no_data],
           Return (Some 0.0))
      | _ :: _ =>
          let '(report, result) :=
            shielding_report mission_duration_days valid_rows in
          (banner ++ [print_reading (List.length lines);
                      print_parsed (List.length valid_rows)] ++ report,
           result)
      end
  end.

End Pipeline.

End CalculateThickness.

(** ** Fixed-point formatting of a float

    The format specification [.Nf] of an f-string prints the exact binary
    value rounded to [N] decimals, ties to even, with a leading minus sign
    when the sign bit is set; NaN prints as [nan] and the infinities as [inf]
    and [-inf]. *)

Module Format.

Local Open Scope string_scope.

Definition digit (n : N) : ascii := ascii_of_N (48 + n mod 10).

(** The last [w] decimal digits of [n], most significant first. *)
Fixpoint fixed_digits (w : nat) (n : N) : string :=
  match w with
  | O => ""
  | S w' => fixed_digits w' (n / 10) ++ String (digit n) ""
  end.

(** The number of decimal digits of [n], at least one. *)
Definition width (n : N) : nat :=
  match n with
  | N0 => 1
  | Npos _ => S (N.to_nat (N.log2 n) / 3)
  end.

(** Leading zeros dropped, the last digit kept. *)
Fixpoint drop_zeros (s : string) : string :=
  match s with
  | String c (String _ _ as t) => if (c =? "0")%char then drop_zeros t else s
  | _ => s
  end.

(** [n] in decimal, without leading zeros. *)
Definition decimal (n : N) : string := drop_zeros (fixed_digits (width n) n).

(** [num / den] rounded to the nearest integer, ties to even. *)
Definition round_half_even (num den : N) : N :=
  let q := (num / den)%N in
  let r := (num mod den)%N in
  match (2 * r ?= den)%N with
  | Lt => q
  | Gt => (q + 1)%N
  | Eq => if N.even q then q else (q + 1)%N
  end.

(** The magnitude [m * 2^e] scaled by [10^p] and rounded to an integer. *)
Definition scaled (p : nat) (m : positive) (e : Z) : N :=
  let ten_p := (10 ^ N.of_nat p)%N in
  match e with
  | Zneg k => round_half_even (Npos m * ten_p) (2 ^ Npos k)
  | _ => (Npos m * 2 ^ Z.to_N e * ten_p)%N
  end.

(** The digits of the scaled integer [q] with the point [p] places from the
    right; no point is printed when [p] is zero. *)
Definition fixed (p : nat) (q : N) : string :=
  let ten_p := (10 ^ N.of_nat p)%N in
  match p with
  | O => decimal q
  | S _ => decimal (q / ten_p) ++ "." ++ fixed_digits p (q mod ten_p)
  end.

Definition sign (s : bool) : string := if s then "-" else "".

(** [f"{x:.pf}"]. *)
Definition format_f (p : nat) (x : float) : string :=
  match Prim2SF x with
  | S754_nan => "nan"
  | S754_infinity s => sign s ++ "inf"
  | S754_zero s => sign s ++ fixed p 0
  | S754_finite s m e => sign s ++ fixed p (scaled p m e)
  end.

End Format.

(** ** [spacecraft_trajectory_propagator.py]: the two exporters *)

Module TrajectoryPropagator.

Import Py Format.
Local Open Scope float_scope.

(** A state of the propagation or of the ephemeris: the six components of the
    array, position at indices 0-2 and velocity at indices 3-5, in metres and
    metres per second. *)
Record state := {
  s0 : float; s1 : float; s2 : float;
  s3 : float; s4 : float; s5 : float
}.

(** [spice.get_body_cartesian_state_at_epoch] for Ganymede as seen from
    Jupiter in the J2000 frame, as a function of [ephemeris_time]. *)
Class Ephemeris := {
  state_gan_wrt_jup : float -> state
}.

(** [results_dict]: the state history, a dictionary from epoch to state in
    its insertion order. *)
Definition results := list (float * state).

Definition all_times (results_dict : results) : list float := map fst results_dict.
Definition all_states (results_dict : results) : list state := map snd results_dict.

(** [xs[::k]] for the positive literal steps of the exporters. *)
Definition downsample {A} (k : nat) (xs : list A) : list A := slice_from k 0 xs.

(** What an exporter prints and writes, in order. *)
Inductive event :=
| print_generating (output_filename : string)
| print_downsampling (n_all n_kept : nat)
| file_written (output_filename : string) (lines : list string)
| print_success (output_filename : string).

Section Exporters.

Context `{EPH : Ephemeris}.

(** *** SPENVIS *)

Definition jd_j2000 : float := 2451545.0.

(** The Julian date of an epoch. *)
Definition current_jd (epoch_seconds : float) : float :=
  jd_j2000 + (epoch_seconds / 86400.0).

(** Position of the spacecraft relative to Jupiter, in km. *)
Definition position_km (state_sc_wrt_gan gan_wrt_jup : state)
  : float * float * float :=
  ((s0 state_sc_wrt_gan + s0 gan_wrt_jup) / 1000.0,
   (s1 state_sc_wrt_gan + s1 gan_wrt_jup) / 1000.0,
   (s2 state_sc_wrt_gan + s2 gan_wrt_jup) / 1000.0).

(** Velocity of the spacecraft relative to Jupiter, in km/s. *)
Definition velocity_km_s (state_sc_wrt_gan gan_wrt_jup : state)
  : float * float * float :=
  ((s3 state_sc_wrt_gan + s3 gan_wrt_jup) / 1000.0,
   (s4 state_sc_wrt_gan + s4 gan_wrt_jup) / 1000.0,
   (s5 state_sc_wrt_gan + s5 gan_wrt_jup) / 1000.0).

(** The record [f"{current_jd:.9f}, {x_km:.6f}, {y_km:.6f}, {z_km:.6f}"]. *)
Definition spenvis_line (epoch_seconds : float) (state_sc_wrt_gan : state) : string :=
  let '(x_km, y_km, z_km) :=
    position_km state_sc_wrt_gan (state_gan_wrt_jup epoch_seconds) in
  (format_f 9 (current_jd epoch_seconds) ++ ", " ++ format_f 6 x_km ++ ", "
   ++ format_f 6 y_km ++ ", " ++ format_f 6 z_km)%string.

(** The loop [for i, epoch_seconds in enumerate(times_downsampled)], entered
    at index [i]: each round reads [states_downsampled[i]], which raises
    [IndexError] past the end of the list. *)
Fixpoint spenvis_loop (i : nat) (times : list float) (states_downsampled : list state)
  : exn + list string :=
  match times with
  | [] => inr []
  | epoch_seconds :: rest =>
      match nth_error states_downsampled i with
      | None => inl IndexError
      | Some state_sc_wrt_gan =>
          match spenvis_loop (S i) rest states_downsampled with
          | inl e => inl e
          | inr data_lines =>
              inr (spenvis_line epoch_seconds state_sc_wrt_gan :: data_lines)
          end
      end
  end.

(** The header section, one entry per [f.write]; every line is written with
    its newline. *)
Definition spenvis_header : list string :=
  [ "******************************************************************";
    "* Optimized Ganymede Orbiter Trajectory (60s step)";
    "******************************************************************";
    "Title: Ganymede Orbiter Analysis";
    "Planet: Jupiter";
    "Coordinates: PEI";
    "Columns: JDCT, X, Y, Z";
    "Format: CSV";
    "******************************************************************" ]%string.

Definition export_results_for_spenvis (results_dict : results)
    (output_filename : string) : list event * option exn :=
  let times_downsampled := downsample 6 (all_times results_dict) in
  let states_downsampled := downsample 6 (all_states results_dict) in
  let started :=
    [print_generating output_filename;
     print_downsampling (List.length (all_times results_dict))
                        (List.length times_downsampled)] in
  match spenvis_loop 0 times_downsampled states_downsampled with
  | inl e => (started, Some e)
  | inr data_lines =>
      (started ++
       [file_written output_filename
          (spenvis_header ++ ["$$BEGIN"%string] ++ data_lines ++ ["$$END"%string]);
        print_success output_filename],
       None)
  end.

(** *** CCSDS OEM

    The numeric content of the data lines: the epoch and the six composed
    components.  The header, the metadata block and the calendar time stamps
    come from [datetime] and are left out. *)

Definition step_size : nat := 30.

Record oem_row := {
  oem_epoch : float;
  oem_position : float * float * float;
  oem_velocity : float * float * float
}.

Fixpoint oem_loop (i : nat) (times : list float) (states_downsampled : list state)
  : exn + list oem_row :=
  match times with
  | [] => inr []
  | epoch_seconds :: rest =>
      match nth_error states_downsampled i with
      | None => inl IndexError
      | Some state_sc_wrt_gan =>
          let gan := state_gan_wrt_jup epoch_seconds in
          match oem_loop (S i) rest states_downsampled with
          | inl e => inl e
          | inr rows =>
              inr ({| oem_epoch := epoch_seconds;
                      oem_position := position_km state_sc_wrt_gan gan;
                      oem_velocity := velocity_km_s state_sc_wrt_gan gan |} :: rows)
          end
      end
  end.

(** The data rows of [export_to_ccsds_oem].  [START_TIME] reads
    [times_downsampled[0]], so an empty history raises [IndexError] before
    any row is written. *)
Definition export_to_ccsds_oem_rows (results_dict : results) : exn + list oem_row :=
  let times_downsampled := downsample step_size (all_times results_dict) in
  let states_downsampled := downsample step_size (all_states results_dict) in
  match times_downsampled with
  | [] => inl IndexError
  | _ :: _ => oem_loop 0 times_downsampled states_downsampled
  end.

End Exporters.

End TrajectoryPropagator.

(** ** [export_to_ccsds_oem]: the file it writes *)

Module OemExport.

Import Py Format TrajectoryPropagator.
Local Open Scope string_scope.

(** What the exporter takes from [datetime]. *)
Class Calendar := {
  (** [datetime.now().strftime('%Y-%m-%dT%H:%M:%S')] *)
  creation_date : string;
  (** [base_date + timedelta(seconds=epoch_seconds)] for the base date
      2000-01-01 12:00:00: the date as ['%Y-%m-%dT%H:%M:%S'] prints it and
      its microsecond field; [None] when [timedelta] or the addition raises
      (a NaN, an infinity, a date out of range) *)
  utc : float -> option (string * N)
}.

(** How the exporter can stop before its end. *)
Inductive raised :=
| raised_IndexError
| raised_by_datetime.

(** [s[:-n]]: [s] without its last [n] characters. *)
Definition drop_last (n : nat) (s : string) : string :=
  substring 0 (String.length s - n) s.

(** [strftime('%Y-%m-%dT%H:%M:%S.%f')]: [%f] is the microsecond on six
    digits. *)
Definition strftime_f (stamp : string * N) : string :=
  fst stamp ++ "." ++ fixed_digits 6 (snd stamp).

Section Exporter.

Context `{EPH : Ephemeris} `{CAL : Calendar}.

(** The ten lines written before the first epoch is read, one entry per
    [f.write]; every line is written with its newline. *)
Definition oem_header : list string :=
  [ "CCSDS_OEM_VERS = 2.0";
    "CREATION_DATE  = " ++ creation_date;
    "ORIGINATOR     = TUDAT_PYTHON";
    "";
    "META_START";
    "OBJECT_NAME          = GANYMEDE_ORBITER";
    "OBJECT_ID            = 999";
    "CENTER_NAME          = JUPITER";
    "REF_FRAME            = EME2000";
    "TIME_SYSTEM          = UTC" ].

(** The end of the metadata block. *)
Definition oem_meta_end (t_start t_stop : string) : list string :=
  [ "START_TIME           = " ++ t_start;
    "STOP_TIME            = " ++ t_stop;
    "META_STOP";
    "" ].

(** One data line:
    [f"{t_str} {x:.5f} {y:.5f} {z:.5f} {vx:.6f} {vy:.6f} {vz:.6f}"]. *)
Definition oem_data_line (epoch_seconds : float) (state_sc_wrt_gan : state)
    (t_current : string * N) : string :=
  let gan := state_gan_wrt_jup epoch_seconds in
  let '(x, y, z) := position_km state_sc_wrt_gan gan in
  let '(vx, vy, vz) := velocity_km_s state_sc_wrt_gan gan in
  let t_str := drop_last 3 (strftime_f t_current) in
  t_str ++ " " ++ format_f 5 x ++ " " ++ format_f 5 y ++ " " ++ format_f 5 z
  ++ " " ++ format_f 6 vx ++ " " ++ format_f 6 vy ++ " " ++ format_f 6 vz.

(** The data loop entered at index [i]: the lines it writes and what stops
    it, if anything does.  A round reads [states_downsampled[i]], then builds
    the time stamp, then writes its line. *)
Fixpoint oem_write_loop (i : nat) (times : list float)
    (states_downsampled : list state) : list string * option raised :=
  match times with
  | [] => ([], None)
  | epoch_seconds :: rest =>
      match nth_error states_downsampled i with
      | None => ([], Some raised_IndexError)
      | Some state_sc_wrt_gan =>
          match utc epoch_seconds with
          | None => ([], Some raised_by_datetime)
          | Some t_current =>
              let '(written, stop) := oem_write_loop (S i) rest states_downsampled in
              (oem_data_line epoch_seconds state_sc_wrt_gan t_current :: written,
               stop)
          end
      end
  end.

(** The exporter.  [file_written] holds the lines in the file when it is
    closed, which the [with] block does on an exception as well. *)
Definition export_to_ccsds_oem (results_dict : results) (output_filename : string)
  : list event * option raised :=
  let times_downsampled := downsample step_size (all_times results_dict) in
  let states_downsampled := downsample step_size (all_states results_dict) in
  let started :=
    [print_generating output_filename;
     print_downsampling (List.length (all_times results_dict))
                        (List.length times_downsampled)] in
  match times_downsampled with
  | [] => ((started ++ [file_written output_filename oem_header])%list,
           Some raised_IndexError)
  | first :: _ =>
      match utc first, utc (last times_downsampled first) with
      | Some t_start, Some t_stop =>
          let '(data, stop) :=
            oem_write_loop 0 times_downsampled states_downsampled in
          let lines :=
            (oem_header ++ oem_meta_end (fst t_start) (fst t_stop) ++ data)%list in
          match stop with
          | None =>
              ((started ++ [file_written output_filename lines;
                            print_success output_filename])%list, None)
          | Some _ => ((started ++ [file_written output_filename lines])%list, stop)
          end
      | _, _ => ((started ++ [file_written output_filename oem_header])%list,
                 Some raised_by_datetime)
      end
  end.

End Exporter.

End OemExport.

(** * Vocabulary of the properties

    Definitions that the statements and proofs below use and that are not
    part of the scripts. *)

(** ** The order of binary64 values *)

(** The rank of a value that is not NaN, as a triple compared
    lexicographically. *)
Definition rank (x : spec_float) : Z * Z * Z :=
  match x with
  | S754_nan => (0, 0, 0)
  | S754_zero _ => (0, 0, 0)
  | S754_infinity true => (-2, 0, 0)
  | S754_infinity false => (2, 0, 0)
  | S754_finite true m e => (-1, - e, - Z.pos m)
  | S754_finite false m e => (1, e, Z.pos m)
  end%Z.

Definition lex3 (a b : Z * Z * Z) : comparison :=
  let '(a1, a2, a3) := a in
  let '(b1, b2, b3) := b in
  match (a1 ?= b1)%Z with
  | Eq => match (a2 ?= b2)%Z with Eq => (a3 ?= b3)%Z | c => c end
  | c => c
  end.

(** ** Signs of binary64 values

    NaN counts on both sides: it compares with nothing. *)

Definition sign_is (s : bool) (x : spec_float) : Prop :=
  match x with
  | S754_nan => True
  | S754_zero s' | S754_infinity s' | S754_finite s' _ _ => s' = s
  end.

(** Zero, negative or NaN. *)
Definition at_most_zero (x : spec_float) : Prop :=
  match x with
  | S754_nan | S754_zero _ => True
  | S754_infinity s | S754_finite s _ _ => s = true
  end.

(** Zero, positive or NaN. *)
Definition at_least_zero (x : spec_float) : Prop :=
  match x with
  | S754_nan | S754_zero _ => True
  | S754_infinity s | S754_finite s _ _ => s = false
  end.

(** ** Tokens of a line *)

Section TokenVocabulary.

Import Py CalculateThickness.

(** The tokens of a line as the specification words them: the line is cut
    at every run of comma / whitespace characters and the empty pieces are
    dropped.  So a line is a run of separators, then a word (a non-empty run
    of other characters that ends at a separator or at the end of the line),
    and so on. *)
Definition at_sep (s : str) : Prop :=
  match s with
  | [] => True
  | c :: _ => is_sep c = true
  end.

Inductive tokenization : str -> list str -> Prop :=
| tok_end seps :
    Forall (fun c => is_sep c = true) seps ->
    tokenization seps []
| tok_word seps word rest ts :
    Forall (fun c => is_sep c = true) seps ->
    word <> [] ->
    Forall (fun c => is_sep c = false) word ->
    at_sep rest ->
    tokenization rest ts ->
    tokenization (seps ++ word ++ rest) (word :: ts).

End TokenVocabulary.

(** ** Numerals *)

Section NumeralVocabulary.

Local Open Scope string_scope.

Definition is_digit (c : ascii) : bool :=
  ((48 <=? nat_of_ascii c) && (nat_of_ascii c <=? 57))%nat.

Fixpoint all_digits (s : string) : bool :=
  match s with
  | "" => true
  | String c t => is_digit c && all_digits t
  end.

(** A numeral with exactly [p] decimals: an optional minus sign, at least
    one digit, the point, and [p] digits. *)
Definition fixed_point (p : nat) (s : string) : Prop :=
  exists sgn int frac,
    s = sgn ++ int ++ "." ++ frac
    /\ (sgn = "" \/ sgn = "-")
    /\ int <> "" /\ all_digits int = true
    /\ all_digits frac = true /\ String.length frac = p.

End NumeralVocabulary.

(** ** Runs of the shielding analysis *)

Section RunVocabulary.

Import Py CalculateThickness.
Local Open Scope float_scope.

(** Python's [mission_duration_days <= 0]. *)
Definition nonpositive (mission_duration_days : num) : Prop :=
  match mission_duration_days with
  | Int n => (n <= 0)%Z
  | Float x => (x <=? 0) = true
  end.

(** The events that carry a result of the analysis. *)
Definition is_result (e : event) : bool :=
  match e with
  | print_parsed _ | print_max_hazard _ | print_raw_thickness _
  | print_recommended _ | savefig _ _ | print_plot_saved => true
  | _ => false
  end.

(** The seconds of a float that holds a whole number of days are the seconds
    of the integer. *)
Definition whole_days_agree (days : Z) : bool :=
  match to_float (seconds_in_mission (Float (F64.of_Z days))) with
  | inr seconds => PrimFloat.Leibniz.eqb seconds (F64.of_Z (days * 86400))
  | inl _ => false
  end.

End RunVocabulary.

(** ** Rows of the OEM export *)

Section ExportVocabulary.

Import Py TrajectoryPropagator.

Context `{EPH : Ephemeris}.

(** The row the OEM loop computes from one entry of the history. *)
Definition oem_row_of (entry : float * state) : oem_row :=
  let gan := state_gan_wrt_jup (fst entry) in
  {| oem_epoch := fst entry;
     oem_position := position_km (snd entry) gan;
     oem_velocity := velocity_km_s (snd entry) gan |}.

End ExportVocabulary.

(** ** Lines of the OEM file *)

Section OemVocabulary.

Import Py TrajectoryPropagator OemExport.

Context `{EPH : Ephemeris} `{CAL : Calendar}.

(** The time stamp of an epoch that converts. *)
Definition stamp_of (epoch_seconds : float) : string * N :=
  match utc epoch_seconds with
  | Some t => t
  | None => (EmptyString, 0%N)
  end.

(** The data line of an entry of the history. *)
Definition oem_line_of (entry : float * state) : string :=
  oem_data_line (fst entry) (snd entry) (stamp_of (fst entry)).

(** The number of entries before the first one whose epoch does not
    convert. *)
Fixpoint converted (entries : results) : nat :=
  match entries with
  | [] => 0
  | entry :: rest =>
      match utc (fst entry) with
      | None => 0
      | Some _ => S (converted rest)
      end
  end.

End OemVocabulary.

(** ** A runtime for the examples

    [float()] restricted to the plain decimal literals [digits] and
    [digits.digits] of at most fifteen digits: the quotient of two integers
    that binary64 holds exactly, hence the correctly rounded value Python
    returns.  Every other token is refused; the examples only use such
    literals and header words, which Python refuses as well.  The examples
    use energies of 2.5 MeV and more, for which neither [numpy.log] nor the
    power operator is called. *)

Module Sample.

Import Py CalculateThickness.
Local Open Scope float_scope.

Definition digit_value (c : char) : option Z :=
  if ((48 <=? c) && (c <=? 57))%N then Some (Z.of_N (c - 48)) else None.

(** [mantissa], the number of digits read, and the number of digits after
    the point once the point is passed. *)
Fixpoint plain_decimal (s : str) (mantissa : Z) (digits : nat) (decimals : option nat)
  : option (Z * nat * nat) :=
  match s with
  | [] =>
      match digits with
      | O => None
      | S _ => Some (mantissa, digits, match decimals with Some d => d | None => O end)
      end
  | c :: t =>
      if (c =? 46)%N then
        match decimals with
        | Some _ => None
        | None => plain_decimal t mantissa digits (Some O)
        end
      else
        match digit_value c with
        | None => None
        | Some v =>
            plain_decimal t (10 * mantissa + v) (S digits)
              (match decimals with Some d => Some (S d) | None => None end)
        end
  end.

Definition float_of_plain_decimal (s : str) : option float :=
  match plain_decimal s 0 0 None with
  | Some (mantissa, digits, decimals) =>
      if (digits <=? 15)%nat
      then Some (F64.of_Z mantissa / F64.of_Z (10 ^ Z.of_nat decimals))
      else None
  | None => None
  end.

#[export] Instance runtime : Runtime := {|
  py_float := float_of_plain_decimal;
  np_log := fun _ => nan;
  py_pow := fun _ _ => nan
|}.

Definition line (s : string) : str := map N_of_ascii (list_ascii_of_string s).

(** A flux table in the layout of [spenvis_sao.txt]: eight header or
    malformed lines and two rows of numbers. *)
Definition table : list str :=
  map line
    [ "* SPENVIS electron spectrum";
      "Block #1";
      "Energy (MeV), Flux";
      "";
      "3.0, 1000000.0";
      "   ";
      "5.0	1000.0  7";
      "10.0";
      "abc 1.0";
      "$$END" ]%string.

End Sample.

(** ** A calendar for the examples

    [base_date + timedelta(seconds=e)] for the epochs that are whole numbers
    of seconds from 0 up to the end of the year 9999: the proleptic Gregorian
    date of the day count, with a zero microsecond field.  Every other epoch
    is refused; the examples only use whole seconds. *)

Module SampleCalendar.

Import Py Format OemExport.
Local Open Scope Z_scope.

(** The whole number a float holds, if it holds one that is not negative. *)
Definition whole_seconds (e : float) : option Z :=
  match Prim2SF e with
  | S754_zero _ => Some 0
  | S754_finite false m (Zpos k) => Some (Z.pos m * 2 ^ Z.pos k)
  | S754_finite false m 0 => Some (Z.pos m)
  | S754_finite false m (Zneg k) =>
      if Z.pos m mod 2 ^ Z.pos k =? 0 then Some (Z.pos m / 2 ^ Z.pos k) else None
  | _ => None
  end.

(** Year, month and day of the day that is [days] days after 1970-01-01. *)
Definition civil_from_days (days : Z) : Z * Z * Z :=
  let z := days + 719468 in
  let era := z / 146097 in
  let doe := z - era * 146097 in
  let yoe := (doe - doe / 1460 + doe / 36524 - doe / 146096) / 365 in
  let doy := doe - (365 * yoe + yoe / 4 - yoe / 100) in
  let mp := (5 * doy + 2) / 153 in
  let d := doy - (153 * mp + 2) / 5 + 1 in
  let m := if mp <? 10 then mp + 3 else mp - 9 in
  let y := yoe + era * 400 + (if m <=? 2 then 1 else 0) in
  (y, m, d).

Definition two (n : Z) : string := fixed_digits 2 (Z.to_N n).

(** The date [n] seconds after 2000-01-01 12:00:00, as
    ['%Y-%m-%dT%H:%M:%S'] prints it. *)
Definition stamp (n : Z) : string :=
  let total := n + 43200 in
  let '(y, m, d) := civil_from_days (10957 + total / 86400) in
  let sod := total mod 86400 in
  (fixed_digits 4 (Z.to_N y) ++ "-" ++ two m ++ "-" ++ two d ++ "T"
   ++ two (sod / 3600) ++ ":" ++ two (sod / 60 mod 60) ++ ":" ++ two (sod mod 60))%string.

#[export] Instance calendar : Calendar := {|
  creation_date := "2026-01-01T00:00:00";
  utc := fun e =>
    match whole_seconds e with
    | Some n => if n <? 252455572800 then Some (stamp n, 0%N) else None
    | None => None
    end
|}.

End SampleCalendar.

(** ** An ephemeris for the examples

    Ganymede at rest at one point of its orbit, a million kilometres from
    Jupiter along the first axis. *)

Module SampleEphemeris.

Import TrajectoryPropagator.
Local Open Scope float_scope.

#[export] Instance ephemeris : Ephemeris := {|
  state_gan_wrt_jup := fun _ =>
    {| s0 := 1000000000; s1 := 0; s2 := 0; s3 := 0; s4 := 0; s5 := 0 |}
|}.

End SampleEphemeris.

Section SampleData.

Import Py CalculateThickness TrajectoryPropagator Sample.
Local Open Scope float_scope.

(** The sample table is always found. *)
Definition sample_files : files := fun _ => inr table.

(** A state history of thirteen epochs ten seconds apart, on a straight
    line. *)
Definition history_entry (t : float) : float * state :=
  (t, {| s0 := 1000 + t; s1 := 2000; s2 := 3000; s3 := 1; s4 := 0; s5 := 0 |}).

Definition sample_history : results :=
  map history_entry [0; 10; 20; 30; 40; 50; 60; 70; 80; 90; 100; 110; 120].

End SampleData.

(** * Properties *)

(** ** Binary64 comparison

    The comparisons of [PrimFloat] are specified through [SFcompare] on the
    decoded value.  On values that are not NaN, [<=?] is a total preorder
    whose strict part is [<?] and whose equivalence is [=?]. *)

Module F64Facts.

Import F64.
Local Open Scope float_scope.

Lemma SFcompare_refl x : x <> S754_nan -> SFcompare x x = Some Eq.
Proof.
  destruct x as [s|s| |s m e]; simpl; try congruence; intros _.
  - now destruct s.
  - rewrite Z.compare_refl.
    change (PosDef.Pos.compare_cont Eq m m) with (Pos.compare m m).
    rewrite Pos.compare_refl. now destruct s.
Qed.

Lemma SFcompare_antisym x y c :
  SFcompare x y = Some c -> SFcompare y x = Some (CompOpp c).
Proof.
  destruct x as [sx|sx| |sx mx ex], y as [sy|sy| |sy my ey]; simpl;
    try congruence; intros [= <-]; f_equal;
    repeat match goal with s : bool |- _ => destruct s end;
    simpl; try reflexivity;
    change (PosDef.Pos.compare_cont Eq mx my) with (Pos.compare mx my);
    change (PosDef.Pos.compare_cont Eq my mx) with (Pos.compare my mx);
    rewrite (Z.compare_antisym ex ey), (Pos.compare_antisym mx my);
    destruct (ex ?= ey)%Z; simpl; try reflexivity;
    destruct (mx ?= my)%positive; reflexivity.
Qed.

Lemma SFcompare_total x y :
  x <> S754_nan -> y <> S754_nan -> exists c, SFcompare x y = Some c.
Proof.
  destruct x, y; simpl; try congruence; eauto.
Qed.

Lemma SFcompare_rank x y :
  x <> S754_nan -> y <> S754_nan ->
  SFcompare x y = Some (lex3 (rank x) (rank y)).
Proof.
  destruct x as [sx|sx| |sx mx ex], y as [sy|sy| |sy my ey]; simpl;
    try congruence; intros _ _; f_equal;
    repeat match goal with s : bool |- _ => destruct s end;
    simpl; try reflexivity.
  rewrite Z.compare_opp, (Z.compare_antisym ex ey).
  destruct (ex ?= ey)%Z; reflexivity.
Qed.

Lemma lex3_le_trans a b c :
  lex3 a b <> Gt -> lex3 b c <> Gt -> lex3 a c <> Gt.
Proof.
  destruct a as [[a1 a2] a3], b as [[b1 b2] b3], c as [[c1 c2] c3]; unfold lex3.
  destruct (Z.compare_spec a1 b1), (Z.compare_spec b1 c1), (Z.compare_spec a1 c1);
    try lia; try congruence;
    destruct (Z.compare_spec a2 b2), (Z.compare_spec b2 c2), (Z.compare_spec a2 c2);
    try lia; try congruence;
    destruct (Z.compare_spec a3 b3), (Z.compare_spec b3 c3), (Z.compare_spec a3 c3);
    try lia; congruence.
Qed.

Lemma SFleb_not_nan x y : SFleb x y = true -> x <> S754_nan /\ y <> S754_nan.
Proof.
  unfold SFleb. destruct x, y; simpl; try discriminate; split; congruence.
Qed.

Lemma SFleb_rank x y :
  SFleb x y = true <->
  x <> S754_nan /\ y <> S754_nan /\ lex3 (rank x) (rank y) <> Gt.
Proof.
  split.
  - intros H. destruct (SFleb_not_nan _ _ H) as [Hx Hy].
    repeat split; trivial. unfold SFleb in H.
    rewrite (SFcompare_rank _ _ Hx Hy) in H.
    destruct (lex3 (rank x) (rank y)); congruence.
  - intros (Hx & Hy & H). unfold SFleb. rewrite (SFcompare_rank _ _ Hx Hy).
    destruct (lex3 (rank x) (rank y)); congruence.
Qed.

Lemma SFleb_trans x y z :
  SFleb x y = true -> SFleb y z = true -> SFleb x z = true.
Proof.
  rewrite !SFleb_rank. intros (Hx & Hy & Hxy) (_ & Hz & Hyz).
  eauto using lex3_le_trans.
Qed.

(** *** The same facts on primitive floats *)

Lemma leb_trans x y z : (x <=? y) = true -> (y <=? z) = true -> (x <=? z) = true.
Proof. rewrite !FloatAxioms.leb_spec. apply SFleb_trans. Qed.

Lemma ordered_spec x : ordered x <-> Prim2SF x <> S754_nan.
Proof.
  unfold ordered. rewrite FloatAxioms.eqb_spec. unfold SFeqb. split.
  - intros H E. rewrite E in H. discriminate.
  - intros H. now rewrite (SFcompare_refl _ H).
Qed.

Lemma leb_ordered x y : (x <=? y) = true -> ordered x /\ ordered y.
Proof.
  rewrite FloatAxioms.leb_spec, !ordered_spec. apply SFleb_not_nan.
Qed.

Lemma ltb_ordered x y : (x <? y) = true -> ordered x /\ ordered y.
Proof.
  rewrite FloatAxioms.ltb_spec, !ordered_spec. unfold SFltb.
  destruct (Prim2SF x), (Prim2SF y); simpl; try discriminate; split; congruence.
Qed.

Lemma leb_refl x : ordered x -> (x <=? x) = true.
Proof.
  rewrite ordered_spec, FloatAxioms.leb_spec. intros H. unfold SFleb.
  now rewrite (SFcompare_refl _ H).
Qed.

Lemma ltb_leb x y : (x <? y) = true -> (x <=? y) = true.
Proof.
  rewrite FloatAxioms.ltb_spec, FloatAxioms.leb_spec. unfold SFltb, SFleb.
  destruct (SFcompare (Prim2SF x) (Prim2SF y)) as [[]|]; congruence.
Qed.

Lemma eqb_leb x y : (x =? y) = true -> (x <=? y) = true.
Proof.
  rewrite FloatAxioms.eqb_spec, FloatAxioms.leb_spec. unfold SFeqb, SFleb.
  destruct (SFcompare (Prim2SF x) (Prim2SF y)) as [[]|]; congruence.
Qed.

(** Not less means greater or equal, on values that are not NaN. *)
Lemma ltb_false_leb x y :
  ordered x -> ordered y -> (x <? y) = false -> (y <=? x) = true.
Proof.
  rewrite !ordered_spec, FloatAxioms.ltb_spec, FloatAxioms.leb_spec. intros Hx Hy.
  destruct (SFcompare_total _ _ Hx Hy) as [c Hc]. unfold SFltb, SFleb.
  rewrite Hc, (SFcompare_antisym _ _ _ Hc). destruct c; simpl; congruence.
Qed.

(** [<?] and [>=] exclude each other. *)
Lemma leb_ltb_false x y : (y <=? x) = true -> (x <? y) = false.
Proof.
  rewrite FloatAxioms.ltb_spec, FloatAxioms.leb_spec. unfold SFltb, SFleb. intros H.
  destruct (SFcompare (Prim2SF x) (Prim2SF y)) as [c|] eqn:Hc; trivial.
  rewrite (SFcompare_antisym _ _ _ Hc) in H. destruct c; simpl in *; congruence.
Qed.

(** A float that compares equal to zero is one of the two zeros. *)
Lemma eqb_zero x : (x =? 0) = true -> x = 0 \/ x = (-0).
Proof.
  rewrite FloatAxioms.eqb_spec. unfold SFeqb. intros H.
  assert (E : exists s, Prim2SF x = S754_zero s).
  { change (Prim2SF 0) with (S754_zero false) in H.
    destruct (Prim2SF x) as [s|s| |s m e]; simpl in H; try discriminate; eauto.
    - destruct s; discriminate.
    - destruct s; discriminate. }
  destruct E as [s E]. rewrite <- (SF2Prim_Prim2SF x), E.
  destruct s; [right|left]; reflexivity.
Qed.

End F64Facts.

(** ** Fixed-stride slicing *)

Section Slicing.

Import Py.

Context {A : Type}.
Implicit Types (xs : list A) (k skip i : nat).

(** The [i]-th element kept is the element at index [skip + i*k]. *)
Lemma slice_from_nth_error k : 0 < k -> forall xs skip i,
  nth_error (slice_from k skip xs) i = nth_error xs (skip + i * k).
Proof.
  intros Hk. induction xs as [|x t IH]; intros skip i.
  - simpl. now rewrite !nth_error_nil.
  - destruct skip as [|s]; simpl.
    + destruct i as [|j]; simpl; trivial.
      rewrite IH. replace (k + j * k) with (S (k - 1 + j * k)) by lia.
      reflexivity.
    + apply IH.
Qed.

(** A list is as long as the set of its valid indices says. *)
Lemma length_by_indices {B} (ys : list B) n :
  (forall i, nth_error ys i <> None <-> i < n) -> List.length ys = n.
Proof.
  intros H.
  assert (Hle : n <= List.length ys).
  { destruct (Nat.le_gt_cases n (List.length ys)) as [|Hlt]; trivial.
    assert (Hn : ~ List.length ys < n).
    { rewrite <- H. intros Hc. apply Hc. apply nth_error_None. lia. }
    lia. }
  destruct (Nat.eq_dec (List.length ys) n) as [|Hne]; trivial.
  assert (Hs : nth_error ys n <> None) by (apply nth_error_Some; lia).
  apply H in Hs. lia.
Qed.

Lemma ceil_div_index n k i : 0 < k -> i < (n + k - 1) / k <-> i * k < n.
Proof.
  intros Hk. split; intros H.
  - destruct (Nat.le_gt_cases n (i * k)) as [Hge|]; trivial.
    assert ((n + k - 1) / k <= i); [|lia].
    apply Nat.lt_succ_r, Nat.Div0.div_lt_upper_bound; lia.
  - apply (Nat.lt_le_trans _ (S i)); [lia|].
    apply Nat.div_le_lower_bound; lia.
Qed.

Lemma slice_from_length k xs :
  0 < k -> List.length (slice_from k 0 xs) = (List.length xs + k - 1) / k.
Proof.
  intros Hk. apply length_by_indices. intros i.
  rewrite slice_from_nth_error by trivial. simpl.
  rewrite nth_error_Some. symmetry. now apply ceil_div_index.
Qed.

Lemma slice_from_map {B} (f : A -> B) k xs skip :
  slice_from k skip (map f xs) = map f (slice_from k skip xs).
Proof.
  revert skip. induction xs as [|x t IH]; intros [|s]; simpl; trivial.
  now rewrite IH.
Qed.

End Slicing.

(** ** The exporters *)

Section ExporterFacts.

Import Py Format TrajectoryPropagator.
Local Open Scope float_scope.

Context `{EPH : Ephemeris}.

Lemma nth_error_beside (done : results) t s (rest : results) :
  nth_error (map snd (done ++ (t, s) :: rest)) (List.length done) = Some s.
Proof.
  rewrite map_app, nth_error_app2 by (rewrite length_map; lia).
  now rewrite length_map, Nat.sub_diag.
Qed.

(** The enumerated loops read, at round [i], the state stored beside the
    epoch of the same round: no [IndexError] arises and the rounds are the
    entries in order. *)
Lemma spenvis_loop_entries (done rest : results) :
  spenvis_loop (List.length done) (map fst rest) (map snd (done ++ rest))
  = inr (map (fun e => spenvis_line (fst e) (snd e)) rest).
Proof.
  revert done. induction rest as [|[t s] rest IH]; intros done; simpl; trivial.
  rewrite (nth_error_beside done t s rest).
  specialize (IH (done ++ [(t, s)])).
  rewrite length_app, Nat.add_1_r, <- app_assoc in IH. simpl in IH.
  now rewrite IH.
Qed.

Lemma oem_loop_entries (done rest : results) :
  oem_loop (List.length done) (map fst rest) (map snd (done ++ rest))
  = inr (map oem_row_of rest).
Proof.
  revert done. induction rest as [|[t s] rest IH]; intros done; simpl; trivial.
  rewrite (nth_error_beside done t s rest).
  specialize (IH (done ++ [(t, s)])).
  rewrite length_app, Nat.add_1_r, <- app_assoc in IH. simpl in IH.
  now rewrite IH.
Qed.

Lemma spenvis_data_lines (results_dict : results) :
  spenvis_loop 0 (downsample 6 (all_times results_dict))
                 (downsample 6 (all_states results_dict))
  = inr (map (fun e => spenvis_line (fst e) (snd e)) (downsample 6 results_dict)).
Proof.
  unfold downsample, all_times, all_states. rewrite !slice_from_map.
  apply (spenvis_loop_entries []).
Qed.

Lemma oem_data_rows (results_dict : results) :
  oem_loop 0 (downsample step_size (all_times results_dict))
             (downsample step_size (all_states results_dict))
  = inr (map oem_row_of (downsample step_size results_dict)).
Proof.
  unfold downsample, all_times, all_states. rewrite !slice_from_map.
  apply (oem_loop_entries []).
Qed.

End ExporterFacts.

(** ** Claims on the trajectory export *)

Section Downsampling.

Import Py TrajectoryPropagator.

(** Distinct entries stay distinct: the kept indices are distinct. *)
Lemma downsample_NoDup {A} (k : nat) (xs : list A) :
  0 < k -> NoDup xs -> NoDup (downsample k xs).
Proof.
  intros Hk Hnd. apply NoDup_nth_error. intros i j Hi E.
  unfold downsample in *. rewrite !slice_from_nth_error in E by trivial.
  simpl in E.
  assert (Hik : i * k < List.length xs).
  { apply nth_error_Some. rewrite <- (Nat.add_0_l (i * k)).
    rewrite <- slice_from_nth_error by trivial. now apply nth_error_Some. }
  pose proof (proj1 (NoDup_nth_error xs) Hnd (i * k) (j * k) Hik E). nia.
Qed.

(** C7. Downsampling a series of length N with a positive stride k is the
    slice [xs[::k]]: it keeps exactly the elements at the indices 0, k, 2k,
    ..., in that order, which are ceil(N/k) elements (N <= len*k < N + k);
    entries that were distinct stay distinct, so no epoch is duplicated.  The
    exporters slice the epochs and the states separately with the strides 6
    and 30, and both slices are the two projections of the sliced history. *)
Theorem downsample_every_kth (results_dict : results) (k : nat) :
  0 < k ->
  slice_step results_dict k = inr (downsample k results_dict)
  /\ (forall i, nth_error (downsample k results_dict) i
                = nth_error results_dict (i * k))
  /\ List.length (downsample k results_dict)
     = (List.length results_dict + k - 1) / k
  /\ (List.length results_dict <= List.length (downsample k results_dict) * k
      /\ List.length (downsample k results_dict) * k < List.length results_dict + k)
  /\ (NoDup (all_times results_dict) ->
      NoDup (all_times (downsample k results_dict)))
  /\ downsample k (all_times results_dict) = all_times (downsample k results_dict)
  /\ downsample k (all_states results_dict) = all_states (downsample k results_dict).
Proof.
  intros Hk.
  assert (Hlen := slice_from_length k results_dict Hk).
  fold (downsample k results_dict) in Hlen.
  repeat split.
  - unfold slice_step. destruct k; [lia | reflexivity].
  - intros i. unfold downsample. now rewrite slice_from_nth_error.
  - exact Hlen.
  - rewrite Hlen.
    pose proof (Nat.div_mod_eq (List.length results_dict + k - 1) k).
    pose proof (Nat.mod_upper_bound (List.length results_dict + k - 1) k). nia.
  - rewrite Hlen.
    pose proof (Nat.div_mod_eq (List.length results_dict + k - 1) k).
    pose proof (Nat.mod_upper_bound (List.length results_dict + k - 1) k). nia.
  - intros Hnd. unfold all_times in *.
    change (downsample k results_dict) with (slice_from k 0 results_dict).
    rewrite <- (slice_from_map fst k results_dict 0).
    now apply (downsample_NoDup k (map fst results_dict)).
  - unfold all_times, downsample. apply slice_from_map.
  - unfold all_states, downsample. apply slice_from_map.
Qed.

End Downsampling.

Section DownsamplingExamples.

Import Py TrajectoryPropagator.
Local Open Scope float_scope.

Example downsample_sample_times :
  all_times (downsample 6 sample_history) = [0; 60; 120]
  /\ all_times (downsample step_size sample_history) = [0]
  /\ all_times (downsample 5 sample_history) = [0; 50; 100].
Proof. repeat split. Qed.

Lemma downsample_every_kth_witness :
  (0 < 6
   /\ List.length (downsample 6 sample_history)
      = (List.length sample_history + 6 - 1) / 6)%nat.
Proof.
  split; [lia|].
  apply (downsample_every_kth sample_history 6). lia.
Defined.

End DownsamplingExamples.

Section FrameComposition.

Import Py TrajectoryPropagator.
Local Open Scope float_scope.

Context `{EPH : Ephemeris}.

(** An entry kept by the downsampling is an entry of the history. *)
Lemma downsample_In {A} (k skip : nat) (xs : list A) x :
  In x (slice_from k skip xs) -> In x xs.
Proof.
  revert skip. induction xs as [|y t IH]; intros skip; simpl; trivial.
  destruct skip as [|s]; simpl.
  - intros [->|H]; eauto.
  - eauto.
Qed.

(** C8. The state of the spacecraft relative to Jupiter is the elementwise
    sum of its state relative to Ganymede and of the state of Ganymede
    relative to Jupiter, divided by 1000.0 (metres to kilometres): the three
    position components in both exporters, and the three velocity components
    in the OEM exporter, which needs them.  Both exporters compose the state
    stored at a kept epoch with the ephemeris queried at that same epoch.
    Positions (1,2,3) km and (10,20,30) km compose to (11,22,33) km. *)
Theorem frame_composition_sum :
  (forall sc gan : state,
     position_km sc gan
     = ((s0 sc + s0 gan) / 1000.0, (s1 sc + s1 gan) / 1000.0, (s2 sc + s2 gan) / 1000.0)
     /\ velocity_km_s sc gan
        = ((s3 sc + s3 gan) / 1000.0, (s4 sc + s4 gan) / 1000.0, (s5 sc + s5 gan) / 1000.0))
  /\ (forall (first : float * state) (rest : results),
        exists rows,
          export_to_ccsds_oem_rows (first :: rest) = inr rows
          /\ forall row, In row rows ->
               exists epoch sc,
                 In (epoch, sc) (first :: rest)
                 /\ oem_epoch row = epoch
                 /\ oem_position row = position_km sc (state_gan_wrt_jup epoch)
                 /\ oem_velocity row = velocity_km_s sc (state_gan_wrt_jup epoch))
  /\ (forall epoch sc,
        spenvis_line epoch sc
        = let '(x_km, y_km, z_km) := position_km sc (state_gan_wrt_jup epoch) in
          (Format.format_f 9 (current_jd epoch) ++ ", " ++ Format.format_f 6 x_km ++ ", "
           ++ Format.format_f 6 y_km ++ ", " ++ Format.format_f 6 z_km)%string)
  /\ position_km {| s0 := 1000; s1 := 2000; s2 := 3000; s3 := 0; s4 := 0; s5 := 0 |}
                 {| s0 := 10000; s1 := 20000; s2 := 30000; s3 := 0; s4 := 0; s5 := 0 |}
     = (11, 22, 33).
Proof.
  split; [|split; [|split]].
  - intros sc gan. split; reflexivity.
  - intros first rest.
    exists (map oem_row_of (downsample step_size (first :: rest))).
    split.
    + unfold export_to_ccsds_oem_rows. rewrite oem_data_rows. reflexivity.
    + intros row Hrow. apply in_map_iff in Hrow.
      destruct Hrow as ([epoch sc] & <- & Hin).
      exists epoch, sc. split; [|repeat split].
      eapply downsample_In. exact Hin.
  - intros epoch sc. reflexivity.
  - reflexivity.
Qed.

End FrameComposition.

(** ** The shape of a formatted number *)

Section FormatFacts.

Import Format.
Local Open Scope string_scope.

Lemma string_length_app s t :
  String.length (s ++ t) = String.length s + String.length t.
Proof. induction s as [|c s IH]; simpl; congruence. Qed.

Lemma all_digits_app s t :
  all_digits (s ++ t) = all_digits s && all_digits t.
Proof.
  induction s as [|c s IH]; simpl; trivial.
  now rewrite IH, andb_assoc.
Qed.

Lemma digit_is_digit n : is_digit (digit n) = true.
Proof.
  unfold digit. pose proof (N.mod_upper_bound n 10) as Hr.
  set (r := (n mod 10)%N) in *.
  assert (E : (r = 0 \/ r = 1 \/ r = 2 \/ r = 3 \/ r = 4 \/ r = 5 \/ r = 6
               \/ r = 7 \/ r = 8 \/ r = 9)%N) by lia.
  repeat destruct E as [E|E]; rewrite E; reflexivity.
Qed.

Lemma fixed_digits_shape w n :
  all_digits (fixed_digits w n) = true /\ String.length (fixed_digits w n) = w.
Proof.
  revert n. induction w as [|w IH]; intros n; simpl; [now split|].
  destruct (IH (n / 10)%N) as [Hd Hl].
  rewrite all_digits_app, string_length_app, Hd, Hl. simpl.
  rewrite digit_is_digit. split; [reflexivity | lia].
Qed.

Lemma drop_zeros_shape s :
  s <> "" -> all_digits s = true ->
  drop_zeros s <> "" /\ all_digits (drop_zeros s) = true.
Proof.
  induction s as [|c s IH]; [congruence|]. intros _ Hd.
  destruct s as [|c' s']; [now split|].
  change (drop_zeros (String c (String c' s')))
    with (if (c =? "0")%char then drop_zeros (String c' s') else String c (String c' s')).
  destruct (c =? "0")%char.
  - apply IH; [congruence|]. simpl in Hd. now apply andb_prop in Hd.
  - split; [congruence | exact Hd].
Qed.

Lemma decimal_shape n : decimal n <> "" /\ all_digits (decimal n) = true.
Proof.
  unfold decimal. destruct (fixed_digits_shape (width n) n) as [Hd Hl].
  apply drop_zeros_shape; trivial.
  intros E. rewrite E in Hl. destruct n; discriminate.
Qed.

Lemma fixed_shape p q sgn :
  sgn = "" \/ sgn = "-" -> fixed_point (S p) (sgn ++ fixed (S p) q).
Proof.
  intros Hs. unfold fixed.
  destruct (decimal_shape (q / 10 ^ N.of_nat (S p))) as [Hne Hd].
  destruct (fixed_digits_shape (S p) (q mod 10 ^ N.of_nat (S p))) as [Hfd Hfl].
  eexists sgn, _, _. repeat split; eauto.
Qed.

(** A formatted float is [nan], [inf], [-inf] or a numeral with exactly the
    requested number of decimals. *)
Lemma format_f_shape p x :
  format_f (S p) x = "nan" \/ format_f (S p) x = "inf" \/ format_f (S p) x = "-inf"
  \/ fixed_point (S p) (format_f (S p) x).
Proof.
  unfold format_f. destruct (Prim2SF x) as [s|s| |s m e].
  - right; right; right. apply fixed_shape. destruct s; auto.
  - destruct s; auto.
  - auto.
  - right; right; right. apply fixed_shape. destruct s; auto.
Qed.

End FormatFacts.

Section SpenvisFormat.

Import Py Format TrajectoryPropagator.
Local Open Scope float_scope.

Context `{EPH : Ephemeris}.

(** C9. The SPENVIS exporter writes, in this order, the banner with the
    literal field lines Title, Planet, Coordinates, Columns and Format, the
    marker [$$BEGIN], one record per kept epoch (every sixth entry of the
    history, in order) and the marker [$$END].  A record is the Julian date
    [2451545.0 + epoch_seconds/86400.0] printed with 9 decimals, then X, Y
    and Z in km with 6 decimals each, separated by a comma and a space; a
    number that is not finite prints as [nan], [inf] or [-inf]. *)
Theorem spenvis_file_layout (results_dict : results) (output_filename : string) :
  export_results_for_spenvis results_dict output_filename
  = ([print_generating output_filename;
      print_downsampling (List.length results_dict)
                         (List.length (downsample 6 results_dict));
      file_written output_filename
        (spenvis_header
         ++ ["$$BEGIN"%string]
         ++ map (fun e => spenvis_line (fst e) (snd e)) (downsample 6 results_dict)
         ++ ["$$END"%string]);
      print_success output_filename],
     None)
  /\ (exists stars banner : string,
        spenvis_header
        = [stars; banner; stars;
           "Title: Ganymede Orbiter Analysis"; "Planet: Jupiter";
           "Coordinates: PEI"; "Columns: JDCT, X, Y, Z"; "Format: CSV";
           stars]%string)
  /\ (forall epoch_seconds sc,
        let gan := state_gan_wrt_jup epoch_seconds in
        spenvis_line epoch_seconds sc
        = (format_f 9 (2451545.0 + epoch_seconds / 86400.0)
           ++ ", " ++ format_f 6 ((s0 sc + s0 gan) / 1000.0)
           ++ ", " ++ format_f 6 ((s1 sc + s1 gan) / 1000.0)
           ++ ", " ++ format_f 6 ((s2 sc + s2 gan) / 1000.0))%string)
  /\ (forall p x,
        format_f (S p) x = "nan"%string \/ format_f (S p) x = "inf"%string
        \/ format_f (S p) x = "-inf"%string
        \/ fixed_point (S p) (format_f (S p) x)).
Proof.
  split; [|split; [|split]].
  - unfold export_results_for_spenvis. rewrite spenvis_data_lines.
    unfold all_times, downsample. rewrite slice_from_map, !length_map.
    reflexivity.
  - do 2 eexists. reflexivity.
  - intros epoch_seconds sc gan. reflexivity.
  - apply format_f_shape.
Qed.

(** One day after the J2000 epoch, with the spacecraft at (1000, 2000, 3000)
    m from Ganymede and Ganymede at (10000, 20000, 30000) m from Jupiter. *)
Example spenvis_line_sample :
  @spenvis_line
    {| state_gan_wrt_jup := fun _ =>
         {| s0 := 10000; s1 := 20000; s2 := 30000; s3 := 0; s4 := 0; s5 := 0 |} |}
    86400 {| s0 := 1000; s1 := 2000; s2 := 3000; s3 := 0; s4 := 0; s5 := 0 |}
  = "2451546.000000000, 11.000000, 22.000000, 33.000000"%string.
Proof. vm_compute. reflexivity. Qed.

(** On an empty state history the SPENVIS exporter still writes the banner
    and the two markers, with no record between them, while the OEM exporter
    fails with [IndexError] when it reads the first kept epoch for
    [START_TIME]. *)
Theorem empty_history_export (output_filename : string) :
  export_results_for_spenvis [] output_filename
  = ([print_generating output_filename;
      print_downsampling 0 0;
      file_written output_filename
        (spenvis_header ++ ["$$BEGIN"; "$$END"]%string);
      print_success output_filename],
     None)
  /\ export_to_ccsds_oem_rows [] = inl IndexError.
Proof. split; reflexivity. Qed.

End SpenvisFormat.

(** ** The line scanner *)

Section Tokens.

Import Py CalculateThickness.

Lemma isspace_is_sep c : isspace c = true -> is_sep c = true.
Proof. unfold is_sep. intros ->. apply orb_true_r. Qed.

Lemma tokenization_cons_sep c s ts :
  is_sep c = true -> tokenization s ts -> tokenization (c :: s) ts.
Proof.
  intros Hc H. destruct H as [seps Hs | seps word rest ts Hs Hne Hw Hr Ht].
  - apply tok_end. now constructor.
  - apply (tok_word (c :: seps)); trivial. now constructor.
Qed.

Lemma tokenization_app_seps ws s ts :
  Forall (fun c => is_sep c = true) ws ->
  tokenization s ts -> tokenization (ws ++ s) ts.
Proof.
  induction 1 as [|c ws Hc _ IH]; intros H; simpl; trivial.
  apply tokenization_cons_sep; auto.
Qed.

Lemma tokenization_seps_app s ts ws :
  Forall (fun c => is_sep c = true) ws ->
  tokenization s ts -> tokenization (s ++ ws) ts.
Proof.
  intros Hws H.
  induction H as [seps Hs | seps word rest ts Hs Hne Hw Hr Ht IH].
  - apply tok_end. apply Forall_app. now split.
  - rewrite <- !app_assoc. apply tok_word; trivial.
    destruct rest as [|c r]; simpl; trivial.
    destruct Hws; simpl; trivial.
Qed.

(** What [re.split] returns, read from its first piece on: after the
    separators still belonging to the current match (none when [in_sep] is
    off) comes the first piece, free of separators and ending at a separator
    or at the end of the text; the non-empty pieces among the others are the
    tokens of what follows. *)
Lemma re_split_from_pieces s : forall in_sep,
  exists seps p ps rest,
    re_split_from in_sep s = p :: ps
    /\ s = seps ++ p ++ rest
    /\ Forall (fun c => is_sep c = true) seps
    /\ (in_sep = false -> seps = [])
    /\ Forall (fun c => is_sep c = false) p
    /\ at_sep rest
    /\ tokenization rest (filter truthy ps).
Proof.
  induction s as [|c t IH]; intros in_sep.
  - exists [], [], [], []. simpl. repeat split; auto. apply tok_end. constructor.
  - simpl. destruct (is_sep c) eqn:Hc.
    + destruct (IH true) as (seps & p & ps & rest & E & Es & Hs & _ & Hp & Hr & Ht).
      destruct in_sep.
      * exists (c :: seps), p, ps, rest. rewrite E, Es.
        repeat split; auto. discriminate.
      * exists [], [], (p :: ps), (c :: t). rewrite E.
        repeat split; auto. simpl. rewrite Es.
        apply tokenization_cons_sep; trivial.
        destruct p as [|a p']; simpl.
        -- apply tokenization_app_seps; trivial.
        -- apply (tok_word seps (a :: p') rest); trivial. discriminate.
    + destruct (IH false) as (seps & p & ps & rest & E & Es & _ & Hnil & Hp & Hr & Ht).
      rewrite E, Es, (Hnil eq_refl).
      exists [], (c :: p), ps, rest. repeat split; auto.
Qed.

(** The pieces kept by the comprehension are the tokens of the text. *)
Lemma re_split_tokens s : tokenization s (filter truthy (re_split s)).
Proof.
  destruct (re_split_from_pieces s false)
    as (seps & p & ps & rest & E & Es & _ & Hnil & Hp & Hr & Ht).
  unfold re_split. rewrite E, Es, (Hnil eq_refl). simpl.
  destruct p as [|a p']; simpl; trivial.
  apply (tok_word [] (a :: p') rest); trivial. discriminate.
Qed.

(** Stripping removes whitespace, which is separators, at both ends. *)
Lemma lstrip_split s :
  exists ws, s = ws ++ lstrip s /\ Forall (fun c => isspace c = true) ws.
Proof.
  induction s as [|c t (ws & E & H)]; simpl.
  - now exists [].
  - destruct (isspace c) eqn:Hc.
    + exists (c :: ws). simpl. split; [congruence | now constructor].
    + now exists [].
Qed.

Lemma strip_split s :
  exists ws1 ws2,
    s = ws1 ++ strip s ++ ws2
    /\ Forall (fun c => is_sep c = true) ws1
    /\ Forall (fun c => is_sep c = true) ws2.
Proof.
  destruct (lstrip_split s) as (ws1 & E1 & H1).
  destruct (lstrip_split (rev (lstrip s))) as (ws2 & E2 & H2).
  exists ws1, (rev ws2). unfold strip, rstrip. repeat split.
  - rewrite <- rev_app_distr, <- E2, rev_involutive. exact E1.
  - revert H1. apply Forall_impl. apply isspace_is_sep.
  - apply Forall_rev. revert H2. apply Forall_impl. apply isspace_is_sep.
Qed.

Lemma parts_of_tokens line : tokenization line (parts_of line).
Proof.
  destruct (strip_split line) as (ws1 & ws2 & E & H1 & H2).
  unfold parts_of. rewrite E at 1.
  apply tokenization_app_seps; trivial.
  apply tokenization_seps_app; trivial.
  apply re_split_tokens.
Qed.

(** *** A line has one tokenization *)

Lemma sep_prefix_unique seps seps' (w w' : str) :
  Forall (fun c => is_sep c = true) seps ->
  Forall (fun c => is_sep c = true) seps' ->
  (exists c r, w = c :: r /\ is_sep c = false) ->
  (exists c r, w' = c :: r /\ is_sep c = false) ->
  seps ++ w = seps' ++ w' -> seps = seps' /\ w = w'.
Proof.
  intros Hs. revert seps'.
  induction Hs as [|a seps Ha _ IH]; intros seps' Hs' Hw Hw' E.
  - destruct Hs' as [|a' seps' Ha' _]; [now split|]. simpl in E.
    destruct Hw as (c & r & -> & Hc). injection E as <- _. congruence.
  - destruct Hs' as [|a' seps' Ha' Hs'].
    + simpl in E. destruct Hw' as (c & r & -> & Hc). injection E as <- _.
      congruence.
    + simpl in E. injection E as <- E.
      destruct (IH seps' Hs' Hw Hw' E) as [-> ->]. now split.
Qed.

Lemma word_unique (w w' rest rest' : str) :
  Forall (fun c => is_sep c = false) w ->
  Forall (fun c => is_sep c = false) w' ->
  at_sep rest -> at_sep rest' ->
  w ++ rest = w' ++ rest' -> w = w' /\ rest = rest'.
Proof.
  intros Hw. revert w'. induction Hw as [|a w Ha _ IH]; intros w' Hw' Hr Hr' E.
  - destruct Hw' as [|a' w' Ha' _]; [now split|]. simpl in E. subst rest.
    simpl in Hr. congruence.
  - destruct Hw' as [|a' w' Ha' Hw'].
    + simpl in E. subst rest'. simpl in Hr'. congruence.
    + simpl in E. injection E as <- E.
      destruct (IH w' Hw' Hr Hr' E) as [-> ->]. now split.
Qed.

Lemma tokenization_inv s ts :
  tokenization s ts ->
  (ts = [] /\ Forall (fun c => is_sep c = true) s)
  \/ exists seps word rest ts0,
       s = seps ++ word ++ rest /\ ts = word :: ts0
       /\ Forall (fun c => is_sep c = true) seps
       /\ word <> []
       /\ Forall (fun c => is_sep c = false) word
       /\ at_sep rest
       /\ tokenization rest ts0.
Proof.
  destruct 1 as [seps Hs | seps word rest ts Hs Hne Hw Hr Ht].
  - now left.
  - right. exists seps, word, rest, ts. repeat split; trivial.
Qed.

(** A word inside a text shows a character that is no separator. *)
Lemma word_not_all_seps seps (word rest : str) :
  word <> [] ->
  Forall (fun c => is_sep c = false) word ->
  ~ Forall (fun c => is_sep c = true) (seps ++ word ++ rest).
Proof.
  intros Hne Hw H. apply Forall_app in H as [_ H]. apply Forall_app in H as [H _].
  destruct word as [|c w]; [congruence|].
  inversion H; subst. inversion Hw; subst. congruence.
Qed.

Lemma word_head (w r : str) :
  w <> [] -> Forall (fun c => is_sep c = false) w ->
  exists c x, w ++ r = c :: x /\ is_sep c = false.
Proof.
  intros Hn Hf. destruct w as [|c w]; [congruence|].
  inversion Hf; subst. simpl. eauto.
Qed.

Lemma tokenization_unique s ts :
  tokenization s ts -> forall ts', tokenization s ts' -> ts = ts'.
Proof.
  induction 1 as [seps Hs | seps word rest ts Hs Hne Hw Hr Ht IH]; intros ts' H'.
  - destruct (tokenization_inv _ _ H')
      as [[-> _] | (seps' & word' & rest' & ts0 & E & -> & Hs' & Hne' & Hw' & Hr' & Ht')];
      trivial.
    exfalso. rewrite E in Hs. now apply word_not_all_seps in Hs.
  - destruct (tokenization_inv _ _ H')
      as [[-> Hall] | (seps' & word' & rest' & ts0 & E & -> & Hs' & Hne' & Hw' & Hr' & Ht')].
    + exfalso. now apply word_not_all_seps in Hall.
    + destruct (sep_prefix_unique seps seps' (word ++ rest) (word' ++ rest'))
        as [<- E2]; auto using word_head.
      destruct (word_unique word word' rest rest') as [<- <-]; trivial.
      f_equal. now apply IH.
Qed.

End Tokens.

Section Scanner.

Import Py CalculateThickness.

Context `{RT : Runtime}.

(** C3. For every line, the scanner cuts the line at the runs of comma /
    whitespace characters and drops the empty pieces, which leaves the one
    tokenization of the line; it appends exactly one row, made of the first
    two tokens read as energy and flux, when there are at least two tokens
    and [float()] accepts both, and no row otherwise.  A [ValueError] of
    [float()] is caught: scanning a line never fails. *)
Theorem scan_line_tokens (line : str) :
  exists tokens,
    tokenization line tokens
    /\ (forall ts, tokenization line ts -> ts = tokens)
    /\ scan_line line
       = match tokens with
         | t0 :: t1 :: _ =>
             match py_float t0, py_float t1 with
             | Some energy, Some flux =>
                 [ {| Energy_MeV := energy; ElectronFlux := flux |} ]
             | _, _ => []
             end
         | _ => []
         end
    /\ (forall row, scan_line line = [row] <->
          exists t0 t1 others,
            tokens = t0 :: t1 :: others
            /\ py_float t0 = Some (Energy_MeV row)
            /\ py_float t1 = Some (ElectronFlux row))
    /\ (scan_line line = [] \/ exists row, scan_line line = [row]).
Proof.
  exists (parts_of line).
  assert (Hscan : scan_line line
       = match parts_of line with
         | t0 :: t1 :: _ =>
             match py_float t0, py_float t1 with
             | Some energy, Some flux =>
                 [ {| Energy_MeV := energy; ElectronFlux := flux |} ]
             | _, _ => []
             end
         | _ => []
         end).
  { unfold scan_line. destruct (parts_of line) as [|t0 [|t1 others]]; reflexivity. }
  split; [apply parts_of_tokens|].
  split; [intros ts Hts; apply (tokenization_unique _ _ Hts), parts_of_tokens|].
  split; [exact Hscan|]. split.
  - intros [e f]. rewrite Hscan. simpl. split.
    + destruct (parts_of line) as [|t0 [|t1 others]]; try discriminate.
      destruct (py_float t0) as [e'|] eqn:E0, (py_float t1) as [f'|] eqn:E1;
        try discriminate.
      intros [= -> ->]. exists t0, t1, others. auto.
    + intros (t0 & t1 & others & -> & -> & ->). reflexivity.
  - rewrite Hscan. destruct (parts_of line) as [|t0 [|t1 others]]; auto.
    destruct (py_float t0), (py_float t1); eauto.
Qed.

End Scanner.

Section ScannerExamples.

Import Py CalculateThickness Sample.
Local Open Scope float_scope.

Example parts_of_samples :
  parts_of (line " 3.0,  1e6 ,") = [line "3.0"; line "1e6"]
  /\ parts_of (line "Energy (MeV)	Flux") = [line "Energy"; line "(MeV)"; line "Flux"]
  /\ parts_of (line " , ,") = [].
Proof. repeat split. Qed.

Example scan_table :
  scan_lines table
  = [ {| Energy_MeV := 3.0; ElectronFlux := 1000000.0 |};
      {| Energy_MeV := 5.0; ElectronFlux := 1000.0 |} ].
Proof. vm_compute. reflexivity. Qed.

End ScannerExamples.

(** ** Fluence and shielding *)

Section Shielding.

Import Py CalculateThickness.
Local Open Scope float_scope.

(** The logarithm is only asked for at positive energies: two runtimes that
    agree there (and on the power) give the same range everywhere. *)
Lemma shielding_required_log_guard (RT RT' : Runtime) (e_mev : float) :
  (forall x, (0 <? x) = true -> @np_log RT x = @np_log RT' x) ->
  (forall x y, @py_pow RT x y = @py_pow RT' x y) ->
  @shielding_required RT e_mev = @shielding_required RT' e_mev.
Proof.
  intros Hlog Hpow. unfold shielding_required.
  destruct (e_mev <? 2.5); trivial.
  destruct (0 <? e_mev) eqn:Hpos; trivial.
  now rewrite Hlog, Hpow.
Qed.

Context `{RT : Runtime}.

Lemma target_data_rows (seconds : float) (valid_rows : list FluxRow) :
  target_data seconds valid_rows
  = map (fun r : FluxRow =>
           let fluence := ElectronFlux r * seconds in
           let range := shielding_required (Energy_MeV r) in
           {| fluence_row := {| flux_row := r; ElectronFluence := fluence |};
              Shielding_g_cm2 := range;
              Al_Thickness_mm := al_thickness_mm range |})
        (filter (fun r : FluxRow => 0.04 <=? Energy_MeV r) valid_rows).
Proof.
  unfold target_data, add_shielding, energy_filter, add_fluence.
  induction valid_rows as [|r rows IH]; simpl; trivial.
  destruct (0.04 <=? Energy_MeV r); simpl; now rewrite IH.
Qed.

(** C2. The areal density is piecewise in the energy with the boundary at
    exactly 2.5: below it, [0.412 * E^(1.265 - 0.0954*ln E)] for a positive
    energy and 0 for a zero energy, where the logarithm is not evaluated;
    from 2.5 on, [0.530*E - 0.106].  The thickness in mm is
    [(r / 2.70) * 10.0], and every row of the target frame carries the range
    of its energy and the thickness of that range. *)
Theorem shielding_piecewise (e_mev : float) :
  ((e_mev <? 2.5) = true -> (0 <? e_mev) = true ->
     shielding_required e_mev
     = 0.412 * py_pow e_mev (1.265 - 0.0954 * np_log e_mev))
  /\ ((e_mev =? 0) = true -> shielding_required e_mev = 0)
  /\ ((2.5 <=? e_mev) = true -> shielding_required e_mev = 0.530 * e_mev - 0.106)
  /\ shielding_required 2.5 = 0.530 * 2.5 - 0.106
  /\ (forall RT' : Runtime,
        (forall x, (0 <? x) = true -> np_log x = @np_log RT' x) ->
        (forall x y, py_pow x y = @py_pow RT' x y) ->
        shielding_required e_mev = @shielding_required RT' e_mev)
  /\ (forall r, al_thickness_mm r = (r / 2.70) * 10.0)
  /\ (forall (seconds : float) valid_rows row,
        In row (target_data seconds valid_rows) ->
        Shielding_g_cm2 row = shielding_required (Energy_MeV row)
        /\ Al_Thickness_mm row = (Shielding_g_cm2 row / 2.70) * 10.0).
Proof.
  split; [|split; [|split; [|split; [|split; [|split]]]]].
  - intros Hlt Hpos. unfold shielding_required. now rewrite Hlt, Hpos.
  - intros Hz. destruct (F64Facts.eqb_zero _ Hz) as [-> | ->]; reflexivity.
  - intros Hge. unfold shielding_required.
    now rewrite (F64Facts.leb_ltb_false _ _ Hge).
  - reflexivity.
  - intros RT'. apply shielding_required_log_guard.
  - intros r. reflexivity.
  - intros seconds valid_rows row Hin.
    rewrite target_data_rows in Hin. apply in_map_iff in Hin.
    destruct Hin as (r & <- & _). split; reflexivity.
Qed.

(** The two branches meet closely at the boundary: the linear branch gives
    1.219 g/cm2 at 2.5 MeV, that is 4.5148 mm of aluminium. *)
Example shielding_at_boundary :
  shielding_required 2.5 = 1.2190000000000001
  /\ al_thickness_mm (shielding_required 2.5) = 4.5148148148148151
  /\ shielding_required 0 = 0 /\ shielding_required (-0) = 0
  /\ shielding_required (-1) = 0
  /\ shielding_required 10 = 5.1940000000000008.
Proof. repeat split. Qed.

Lemma whole_days_checked :
  forallb whole_days_agree (map Z.of_nat (seq 0 3661)) = true.
Proof. vm_compute. reflexivity. Qed.

Lemma whole_days_seconds (days : Z) :
  (0 <= days <= 3660)%Z ->
  to_float (seconds_in_mission (Float (F64.of_Z days)))
  = inr (F64.of_Z (days * 86400)).
Proof.
  intros H.
  assert (Hb : whole_days_agree days = true).
  { apply (proj1 (forallb_forall _ _) whole_days_checked).
    apply in_map_iff. exists (Z.to_nat days). split; [lia|].
    apply in_seq. lia. }
  unfold whole_days_agree in Hb. cbn [to_float seconds_in_mission] in *.
  apply FloatAxioms.Leibniz.eqb_spec in Hb. now rewrite Hb.
Qed.

(** C6, as the code has it.  Every row gets the fluence [flux * seconds] in
    binary64, where the seconds are [mission_duration_days * 24 * 3600]
    computed in the type of the argument and then converted to a float.  For
    a whole number of days given as an int they are the integer
    [days * 86400], converted as [float()] converts it, with [OverflowError]
    beyond the range of binary64.  For a float they are the binary64 product
    taken in the order of the source, which is [days * 86400] for a float
    holding a whole number of days (checked up to ten years) and not in
    general.  A shielding row is made exactly for the rows whose energy is at
    least 0.04, the value 0.04 included, in their order; rows below 0.04
    appear nowhere downstream. *)
Theorem fluence_and_energy_cut (seconds : float) (valid_rows : list FluxRow) :
  map (fun row : ShieldingRow =>
         (Energy_MeV row, ElectronFlux row, ElectronFluence row))
      (target_data seconds valid_rows)
  = map (fun r : FluxRow =>
           (Energy_MeV r, ElectronFlux r, ElectronFlux r * seconds))
        (filter (fun r : FluxRow => 0.04 <=? Energy_MeV r) valid_rows)
  /\ (forall days : Z,
        seconds_in_mission (Int days) = Int (days * 86400)
        /\ to_float (seconds_in_mission (Int days))
           = if PrimFloat.is_infinity (F64.of_Z (days * 86400))
             then inl OverflowError
             else inr (F64.of_Z (days * 86400)))
  /\ (forall days : float,
        to_float (seconds_in_mission (Float days)) = inr (days * 24 * 3600))
  /\ (forall days : Z, (0 <= days <= 3660)%Z ->
        to_float (seconds_in_mission (Float (F64.of_Z days)))
        = inr (F64.of_Z (days * 86400)))
  /\ (forall mission_duration_days : num,
        shielding_report mission_duration_days valid_rows
        = match to_float (seconds_in_mission mission_duration_days) with
          | inl e => ([], Raise e)
          | inr s =>
              match hazard_selection (target_data s valid_rows) with
              | inl e => ([], Raise e)
              | inr (max_hazard_energy, design_thickness) =>
                  ([print_max_hazard max_hazard_energy;
                    print_raw_thickness design_thickness;
                    print_recommended (design_thickness * 1.2);
                    savefig (map (fun r : ShieldingRow =>
                                    (Energy_MeV r, Al_Thickness_mm r))
                                 (target_data s valid_rows))
                            (design_thickness * 1.2);
                    print_plot_saved],
                   Return None)
              end
          end)
  /\ (forall r : FluxRow,
        (exists row, In row (target_data seconds valid_rows)
                     /\ flux_row row = r)
        <-> In r valid_rows /\ (0.04 <=? Energy_MeV r) = true)
  /\ (forall flux, In {| Energy_MeV := 0.04; ElectronFlux := flux |} valid_rows ->
        exists row, In row (target_data seconds valid_rows)
                    /\ Energy_MeV row = 0.04 /\ ElectronFlux row = flux)
  /\ (forall row, In row (hazardous_energies (target_data seconds valid_rows)) ->
        (0.04 <=? Energy_MeV row) = true).
Proof.
  split; [|split; [|split; [|split; [|split; [|split; [|split]]]]]].
  - rewrite target_data_rows, map_map. reflexivity.
  - intros days. unfold seconds_in_mission.
    replace (days * 24 * 3600)%Z with (days * 86400)%Z by lia. now split.
  - reflexivity.
  - apply whole_days_seconds.
  - intros mission_duration_days. unfold shielding_report.
    destruct (to_float _) as [e|s]; reflexivity.
  - intros r. rewrite target_data_rows. split.
    + intros (row & Hin & <-). apply in_map_iff in Hin.
      destruct Hin as (r & <- & Hr). apply filter_In in Hr. exact Hr.
    + intros Hr. eexists. split.
      * apply in_map_iff. exists r. split; [reflexivity|]. now apply filter_In.
      * reflexivity.
  - intros flux Hin. rewrite target_data_rows. eexists. split.
    + apply in_map_iff. eexists. split; [reflexivity|].
      apply filter_In. split; [exact Hin | reflexivity].
    + split; reflexivity.
  - intros row Hin. apply filter_In in Hin as [Hin _].
    rewrite target_data_rows in Hin. apply in_map_iff in Hin.
    destruct Hin as (r & <- & Hr). apply filter_In in Hr. apply Hr.
Qed.

End Shielding.

(** ** Hazard selection *)

Section Hazard.

Import Py CalculateThickness.
Local Open Scope float_scope.

Lemma fmax_cases a b :
  F64.ordered a -> F64.ordered b ->
  (fmax a b = a \/ fmax a b = b)
  /\ (a <=? fmax a b) = true /\ (b <=? fmax a b) = true.
Proof.
  intros Ha Hb. unfold fmax. destruct (a <? b) eqn:E.
  - repeat split; auto using F64Facts.ltb_leb, F64Facts.leb_refl.
  - repeat split; auto using F64Facts.ltb_false_leb, F64Facts.leb_refl.
Qed.

(** The running maximum is an element and bounds every element. *)
Lemma fold_fmax_spec t : forall x,
  F64.ordered x -> Forall F64.ordered t ->
  In (fold_left fmax t x) (x :: t)
  /\ forall y, In y (x :: t) -> (y <=? fold_left fmax t x) = true.
Proof.
  induction t as [|a t IH]; intros x Hx Ht.
  - simpl. split; [now left|]. intros y [<-|[]]. now apply F64Facts.leb_refl.
  - inversion Ht as [|? ? Ha Ht']; subst.
    destruct (fmax_cases x a Hx Ha) as (Hc & Hxa & Haa).
    assert (Hm : F64.ordered (fmax x a)) by (destruct Hc as [-> | ->]; trivial).
    destruct (IH (fmax x a) Hm Ht') as [Hin Hub].
    change (fold_left fmax (a :: t) x) with (fold_left fmax t (fmax x a)).
    split.
    + destruct Hin as [E | Hin].
      * rewrite <- E. destruct Hc as [-> | ->]; [now left | right; now left].
      * right; now right.
    + intros y [<- | [<- | Hy]].
      * apply (F64Facts.leb_trans _ (fmax x a)); trivial. apply Hub. now left.
      * apply (F64Facts.leb_trans _ (fmax x a)); trivial. apply Hub. now left.
      * apply Hub. now right.
Qed.

Lemma filter_ordered xs :
  Forall F64.ordered xs -> filter (fun x => x =? x) xs = xs.
Proof.
  induction 1 as [|x xs Hx _ IH]; simpl; trivial.
  unfold F64.ordered in Hx. now rewrite Hx, IH.
Qed.

(** On a series without NaN, [max()] is an entry that every entry is at most
    equal to. *)
Lemma series_max_spec xs :
  xs <> [] -> Forall F64.ordered xs ->
  In (series_max xs) xs
  /\ forall y, In y xs -> (y <=? series_max xs) = true.
Proof.
  intros Hne H. unfold series_max. rewrite (filter_ordered _ H).
  destruct xs as [|x xs]; [congruence|].
  inversion H; subst. now apply fold_fmax_spec.
Qed.

(** The first entry a filter keeps. *)
Lemma filter_head {A} (f : A -> bool) (xs : list A) x :
  In x xs -> f x = true ->
  exists y ys, filter f xs = y :: ys /\ In y xs /\ f y = true.
Proof.
  intros Hin Hf.
  destruct (filter f xs) as [|y ys] eqn:E.
  - assert (Hx : In x (filter f xs)) by now apply filter_In.
    rewrite E in Hx. destruct Hx.
  - exists y, ys. split; trivial.
    assert (Hy : In y (filter f xs)) by (rewrite E; now left).
    now apply filter_In in Hy.
Qed.

Lemma eqb_leb_sym x y : (x =? y) = true -> (y <=? x) = true.
Proof.
  rewrite FloatAxioms.eqb_spec, FloatAxioms.leb_spec. unfold SFeqb, SFleb.
  destruct (SFcompare (Prim2SF x) (Prim2SF y)) as [c|] eqn:E; [|discriminate].
  rewrite (F64Facts.SFcompare_antisym _ _ _ E). destruct c; simpl; congruence.
Qed.

(** The selection on any frame whose energies are not NaN. *)
Lemma hazard_selection_max (target : list ShieldingRow) :
  Forall (fun r : ShieldingRow => F64.ordered (Energy_MeV r)) target ->
  forall r0, In r0 (hazardous_energies target) ->
  exists r,
    In r (hazardous_energies target)
    /\ (forall r', In r' (hazardous_energies target) ->
          (Energy_MeV r' <=? Energy_MeV r) = true)
    /\ (Energy_MeV r =? series_max (map (fun r : ShieldingRow => Energy_MeV r)
                                        (hazardous_energies target))) = true
    /\ hazard_selection target
       = inr (series_max (map (fun r : ShieldingRow => Energy_MeV r)
                              (hazardous_energies target)),
              Al_Thickness_mm r).
Proof.
  intros Hord r0 Hr0. unfold hazard_selection.
  set (hz := hazardous_energies target) in *.
  assert (Hhz : Forall (fun r : ShieldingRow => F64.ordered (Energy_MeV r)) hz).
  { apply Forall_forall. intros r Hr. apply filter_In in Hr as [Hr _].
    revert r Hr. now apply Forall_forall. }
  destruct hz as [|h hz'] eqn:Ehz; [destruct Hr0|].
  set (es := map (fun r : ShieldingRow => Energy_MeV r) (h :: hz')).
  assert (Hes : Forall F64.ordered es).
  { unfold es. apply Forall_map. exact Hhz. }
  destruct (series_max_spec es) as [Hin Hub]; trivial; [discriminate|].
  apply in_map_iff in Hin. destruct Hin as (rm & Erm & Hrm).
  assert (Hm : F64.ordered (series_max es)).
  { rewrite <- Erm. exact (proj1 (Forall_forall _ _) Hhz rm Hrm). }
  destruct (filter_head (fun r : ShieldingRow => Energy_MeV r =? series_max es)
              (h :: hz') rm Hrm) as (r & rs & Ef & Hr & Heq).
  { rewrite Erm. exact Hm. }
  exists r. rewrite Ef. repeat split; trivial.
  intros r' Hr'. apply (F64Facts.leb_trans _ (series_max es)).
  - apply Hub. apply in_map_iff. eauto.
  - now apply eqb_leb_sym.
Qed.

Context `{RT : Runtime}.

(** The energies of the target frame passed the cut, so none is NaN. *)
Lemma target_data_ordered (seconds : float) (valid_rows : list FluxRow) :
  Forall (fun r : ShieldingRow => F64.ordered (Energy_MeV r))
         (target_data seconds valid_rows).
Proof.
  apply Forall_forall. intros row Hin. rewrite target_data_rows in Hin.
  apply in_map_iff in Hin. destruct Hin as (r & <- & Hr).
  apply filter_In in Hr as [_ Hr]. simpl.
  now apply F64Facts.leb_ordered in Hr.
Qed.

End Hazard.

Section HazardClaim.

Import Py CalculateThickness.
Local Open Scope float_scope.

(** Two values that compare equal are the same value, the two zeros
    apart. *)
Lemma SFcompare_Eq_eq x y :
  SFcompare x y = Some Eq ->
  x = y \/ exists s s', x = S754_zero s /\ y = S754_zero s'.
Proof.
  destruct x as [sx|sx| |sx mx ex], y as [sy|sy| |sy my ey]; simpl;
    try discriminate; eauto;
    repeat match goal with s : bool |- _ => destruct s end;
    try discriminate; auto;
    change (PosDef.Pos.compare_cont Eq mx my) with (Pos.compare mx my);
    destruct (Z.compare_spec ex ey); try discriminate;
    destruct (Pos.compare_spec mx my); try discriminate;
    subst; auto.
Qed.

Lemma eqb_eq_above_cut x y :
  (0.04 <=? x) = true -> (x =? y) = true -> x = y.
Proof.
  rewrite FloatAxioms.leb_spec, FloatAxioms.eqb_spec. unfold SFleb, SFeqb.
  intros Hx Hxy.
  destruct (SFcompare (Prim2SF x) (Prim2SF y)) as [[]|] eqn:E; try discriminate.
  destruct (SFcompare_Eq_eq _ _ E) as [Heq | (s & s' & Ex & _)].
  - now apply Prim2SF_inj.
  - rewrite Ex in Hx. vm_compute in Hx. discriminate.
Qed.

Context `{RT : Runtime}.

(** C1. On the shielding rows of any run, whatever the seconds its fluences
    were made with: when some row has a fluence above
    1e9, the reported hazard energy is the largest energy among those rows
    and the raw design thickness is the thickness of a row that has it; when
    no row has, the hazard energy is 0.5 and the raw design thickness 2.0.
    The recommended thickness, printed and drawn, is the raw one times 1.2,
    which is 2.4 for the fallback. *)
Theorem hazard_selection_spec (seconds : float) (valid_rows : list FluxRow) :
  ((forall row, In row (target_data seconds valid_rows) ->
                (1e9 <? ElectronFluence row) = false) ->
   hazard_selection (target_data seconds valid_rows) = inr (0.5, 2.0))
  /\ (forall row0,
        In row0 (target_data seconds valid_rows) ->
        (1e9 <? ElectronFluence row0) = true ->
        exists row,
          In row (target_data seconds valid_rows)
          /\ (1e9 <? ElectronFluence row) = true
          /\ (forall row', In row' (target_data seconds valid_rows) ->
                (1e9 <? ElectronFluence row') = true ->
                (Energy_MeV row' <=? Energy_MeV row) = true)
          /\ hazard_selection (target_data seconds valid_rows)
             = inr (Energy_MeV row, Al_Thickness_mm row))
  /\ (forall mission_duration_days max_hazard_energy design_thickness,
        to_float (seconds_in_mission mission_duration_days) = inr seconds ->
        hazard_selection (target_data seconds valid_rows)
        = inr (max_hazard_energy, design_thickness) ->
        shielding_report mission_duration_days valid_rows
        = ([print_max_hazard max_hazard_energy;
            print_raw_thickness design_thickness;
            print_recommended (design_thickness * 1.2);
            savefig (map (fun r : ShieldingRow => (Energy_MeV r, Al_Thickness_mm r))
                         (target_data seconds valid_rows))
                    (design_thickness * 1.2);
            print_plot_saved],
           Return None))
  /\ final_thickness 2.0 = 2.4.
Proof.
  set (target := target_data seconds valid_rows).
  split; [|split; [|split]].
  - intros Hnone. unfold hazard_selection.
    destruct (hazardous_energies target) as [|h hz] eqn:E; trivial.
    assert (Hh : In h (hazardous_energies target)) by (rewrite E; now left).
    apply filter_In in Hh as [Hin Hh]. rewrite (Hnone h Hin) in Hh. discriminate.
  - intros row0 Hin0 Hhaz0.
    assert (H0 : In row0 (hazardous_energies target)) by now apply filter_In.
    destruct (hazard_selection_max target
                (target_data_ordered seconds valid_rows) row0 H0)
      as (row & Hrow & Hmax & Heq & Hsel).
    apply filter_In in Hrow as [Hin Hhaz].
    exists row. repeat split; trivial.
    + intros row' Hin' Hhaz'. apply Hmax. now apply filter_In.
    + rewrite Hsel. f_equal. f_equal. symmetry.
      apply eqb_eq_above_cut; trivial.
      unfold target in Hin. rewrite target_data_rows in Hin.
      apply in_map_iff in Hin. destruct Hin as (r & <- & Hr).
      apply filter_In in Hr. apply Hr.
  - intros mission_duration_days max_hazard_energy design_thickness Hsec Hsel.
    unfold shielding_report. rewrite Hsec. fold target. rewrite Hsel. reflexivity.
  - reflexivity.
Qed.

End HazardClaim.

(** ** Signs of binary64 products

    Rounding keeps the sign, so the product of a value that is not negative
    and a value that is not positive is never positive. *)

Section Signs.

Local Open Scope float_scope.

Lemma sign_is_true x : sign_is true x -> at_most_zero x.
Proof. destruct x; simpl; auto. Qed.

Lemma sign_is_false x : sign_is false x -> at_least_zero x.
Proof. destruct x; simpl; auto. Qed.

Lemma binary_round_aux_sign s m e l :
  sign_is s (binary_round_aux prec emax s m e l).
Proof.
  unfold binary_round_aux.
  destruct (shr_fexp prec emax m e l) as [mrs' e'].
  destruct (shr_fexp prec emax _ e' loc_Exact) as [mrs'' e''].
  destruct (shr_m mrs''); simpl; trivial.
  destruct (e'' <=? _)%Z; simpl; reflexivity.
Qed.

Lemma binary_round_sign s m e : sign_is s (binary_round prec emax s m e).
Proof.
  unfold binary_round. destruct (shl_align m e _) as [mz ez].
  apply binary_round_aux_sign.
Qed.

Lemma SFmul_at_most_zero x y :
  at_least_zero x -> at_most_zero y -> at_most_zero (SF64mul x y).
Proof.
  destruct x as [sx|sx| |sx mx ex], y as [sy|sy| |sy my ey]; simpl;
    trivial; intros; subst; simpl; trivial.
  apply sign_is_true, binary_round_aux_sign.
Qed.

Lemma SFmul_at_most_zero_l x y :
  at_most_zero x -> at_least_zero y -> at_most_zero (SF64mul x y).
Proof.
  destruct x as [sx|sx| |sx mx ex], y as [sy|sy| |sy my ey]; simpl;
    trivial; intros; subst; simpl; trivial.
  apply sign_is_true, binary_round_aux_sign.
Qed.

Lemma mul_at_most_zero x y :
  at_least_zero (Prim2SF x) -> at_most_zero (Prim2SF y) ->
  at_most_zero (Prim2SF (x * y)).
Proof. rewrite mul_spec. apply SFmul_at_most_zero. Qed.

Lemma mul_at_most_zero_l x y :
  at_most_zero (Prim2SF x) -> at_least_zero (Prim2SF y) ->
  at_most_zero (Prim2SF (x * y)).
Proof. rewrite mul_spec. apply SFmul_at_most_zero_l. Qed.

(** Python's [x <= 0] and [not (x < 0)]. *)
Lemma leb_zero_at_most x : (x <=? 0) = true -> at_most_zero (Prim2SF x).
Proof.
  rewrite FloatAxioms.leb_spec. change (Prim2SF 0) with (S754_zero false).
  destruct (Prim2SF x) as [s|s| |s m e]; simpl; trivial; destruct s; trivial;
    discriminate.
Qed.

Lemma ltb_zero_at_least x : (x <? 0) = false -> at_least_zero (Prim2SF x).
Proof.
  rewrite FloatAxioms.ltb_spec. change (Prim2SF 0) with (S754_zero false).
  destruct (Prim2SF x) as [s|s| |s m e]; simpl; trivial; destruct s; trivial;
    discriminate.
Qed.

(** A value that is not positive is not above the hazard threshold. *)
Lemma at_most_zero_below_threshold x :
  at_most_zero (Prim2SF x) -> (1e9 <? x) = false.
Proof.
  rewrite FloatAxioms.ltb_spec.
  change (Prim2SF 1e9) with (S754_finite false 8388608000000000 (-23)).
  destruct (Prim2SF x) as [s|s| |s m e]; simpl; trivial; intros ->; reflexivity.
Qed.

(** The float of an integer that is not positive. *)
Lemma of_Z_at_most_zero n : (n <= 0)%Z -> at_most_zero (Prim2SF (F64.of_Z n)).
Proof.
  intros Hn. unfold F64.of_Z. destruct n as [|p|p]; [exact I | lia |].
  simpl. pose proof (binary_round_sign true p 0) as Hs.
  destruct (binary_round prec emax true p 0) as [s|s| |s m e]; simpl in Hs; subst.
  - exact I.
  - reflexivity.
  - exact I.
  - simpl. rewrite opp_spec, Z_ldexp_spec, of_uint63_spec.
    match goal with
    | |- context [Uint63Axioms.to_Z ?i] =>
        pose proof (Uint63.to_Z_bounded i) as [Hlo _];
        destruct (Uint63Axioms.to_Z i) as [|q|q]; [exact I | | lia]
    end.
    simpl. pose proof (binary_round_sign false q 0) as Hq.
    destruct (binary_round prec emax false q 0) as [s|s| |s m' e']; simpl in *;
      subst; trivial.
    pose proof (binary_round_sign false m' (e' + e)) as Hr.
    destruct (binary_round prec emax false m' (e' + e)); simpl in *; subst; trivial.
Qed.

End Signs.

(** ** The entry point *)

Section EntryPoint.

Import Py CalculateThickness.
Local Open Scope float_scope.

Context `{RT : Runtime}.

(** The selection never indexes an empty frame. *)
Lemma hazard_selection_total (seconds : float) (valid_rows : list FluxRow) :
  exists max_hazard_energy design_thickness,
    hazard_selection (target_data seconds valid_rows)
    = inr (max_hazard_energy, design_thickness).
Proof.
  destruct (hazardous_energies (target_data seconds valid_rows))
    as [|h hz] eqn:E.
  - exists 0.5, 2.0. unfold hazard_selection. now rewrite E.
  - destruct (hazard_selection_max _
                (target_data_ordered seconds valid_rows) h)
      as (row & _ & _ & _ & Hsel).
    { rewrite E. now left. }
    eauto.
Qed.

(** What the conversion of the seconds can raise, and for which durations. *)
Lemma seconds_raise (mission_duration_days : num) (e : exn) :
  to_float (seconds_in_mission mission_duration_days) = inl e
  <-> e = OverflowError
      /\ exists days, mission_duration_days = Int days
                      /\ PrimFloat.is_infinity (F64.of_Z (days * 86400)) = true.
Proof.
  destruct mission_duration_days as [n|x]; cbn [seconds_in_mission to_float].
  - replace (n * 24 * 3600)%Z with (n * 86400)%Z by lia.
    destruct (PrimFloat.is_infinity (F64.of_Z (n * 86400))) eqn:E; split.
    + intros [= <-]. eauto.
    + now intros [-> _].
    + discriminate.
    + intros (_ & days & [= <-] & H). congruence.
  - split; [discriminate|]. intros (_ & days & H & _). discriminate.
Qed.

Lemma shielding_report_returns (mission_duration_days : num) (seconds : float)
    (valid_rows : list FluxRow) :
  to_float (seconds_in_mission mission_duration_days) = inr seconds ->
  exists max_hazard_energy design_thickness,
    hazard_selection (target_data seconds valid_rows)
    = inr (max_hazard_energy, design_thickness)
    /\ shielding_report mission_duration_days valid_rows
       = ([print_max_hazard max_hazard_energy;
           print_raw_thickness design_thickness;
           print_recommended (design_thickness * 1.2);
           savefig (map (fun r : ShieldingRow => (Energy_MeV r, Al_Thickness_mm r))
                        (target_data seconds valid_rows))
                   (design_thickness * 1.2);
           print_plot_saved],
          Return None).
Proof.
  intros Hsec.
  destruct (hazard_selection_total seconds valid_rows) as (e & t & Hsel).
  exists e, t. split; trivial. unfold shielding_report. now rewrite Hsec, Hsel.
Qed.

Lemma shielding_report_raises (mission_duration_days : num) (e : exn)
    (valid_rows : list FluxRow) :
  to_float (seconds_in_mission mission_duration_days) = inl e ->
  shielding_report mission_duration_days valid_rows = ([], Raise OverflowError).
Proof.
  intros Hsec. unfold shielding_report. rewrite Hsec.
  apply seconds_raise in Hsec as [-> _]. reflexivity.
Qed.

(** The seconds of a duration that is not positive are not positive. *)
Lemma seconds_at_most_zero (mission_duration_days : num) (seconds : float) :
  nonpositive mission_duration_days ->
  to_float (seconds_in_mission mission_duration_days) = inr seconds ->
  at_most_zero (Prim2SF seconds).
Proof.
  destruct mission_duration_days as [n|x];
    cbn [seconds_in_mission to_float nonpositive]; intros H Hsec.
  - destruct (PrimFloat.is_infinity _); [discriminate|]. injection Hsec as <-.
    apply of_Z_at_most_zero. lia.
  - injection Hsec as <-.
    apply mul_at_most_zero_l;
      [apply mul_at_most_zero_l; [now apply leb_zero_at_most|]|];
      vm_compute; reflexivity.
Qed.

(** With such a duration no row of a table without negative flux is
    hazardous. *)
Lemma no_hazard_when_nonpositive (mission_duration_days : num) (seconds : float)
    (valid_rows : list FluxRow) :
  nonpositive mission_duration_days ->
  to_float (seconds_in_mission mission_duration_days) = inr seconds ->
  Forall (fun r : FluxRow => (ElectronFlux r <? 0) = false) valid_rows ->
  hazardous_energies (target_data seconds valid_rows) = [].
Proof.
  intros Hd Hsec Hflux.
  destruct (hazardous_energies (target_data seconds valid_rows))
    as [|h hz] eqn:E; trivial.
  assert (Hh : In h (hazardous_energies (target_data seconds valid_rows)))
    by (rewrite E; now left).
  apply filter_In in Hh as [Hin Hhaz]. rewrite target_data_rows in Hin.
  apply in_map_iff in Hin. destruct Hin as (r & <- & Hr).
  apply filter_In in Hr as [Hr _]. simpl in Hhaz.
  rewrite at_most_zero_below_threshold in Hhaz; [discriminate|].
  apply mul_at_most_zero; [|now apply (seconds_at_most_zero mission_duration_days)].
  apply ltb_zero_at_least. exact (proj1 (Forall_forall _ _) Hflux r Hr).
Qed.

(** C5. When the data file is not found, and when it is found but no line
    yields a row, the run stops at once: it prints the error message and
    returns 0.0.  Nothing that carries a result is produced: no row count, no
    hazard energy, no thickness, no plot. *)
Theorem error_paths_return_zero (fs : files) (data_file : string)
    (mission_duration_days : num) :
  (fs data_file = inl FileNotFoundError ->
   calculate_shielding fs data_file mission_duration_days
   = ([print_starting mission_duration_days;
       print_not_found data_file; print_ensure_folder],
      Return (Some 0)))
  /\ (forall lines, fs data_file = inr lines -> scan_lines lines = [] ->
      calculate_shielding fs data_file mission_duration_days
      = ([print_starting mission_duration_days;
          print_reading (List.length lines); print_no_data],
         Return (Some 0)))
  /\ ((fs data_file = inl FileNotFoundError
       \/ exists lines, fs data_file = inr lines /\ scan_lines lines = []) ->
      snd (calculate_shielding fs data_file mission_duration_days) = Return (Some 0)
      /\ existsb is_result (fst (calculate_shielding fs data_file mission_duration_days))
         = false).
Proof.
  assert (H1 : fs data_file = inl FileNotFoundError ->
   calculate_shielding fs data_file mission_duration_days
   = ([print_starting mission_duration_days;
       print_not_found data_file; print_ensure_folder],
      Return (Some 0))).
  { intros E. unfold calculate_shielding. now rewrite E. }
  assert (H2 : forall lines, fs data_file = inr lines -> scan_lines lines = [] ->
      calculate_shielding fs data_file mission_duration_days
      = ([print_starting mission_duration_days;
          print_reading (List.length lines); print_no_data],
         Return (Some 0))).
  { intros lines E Hrows. unfold calculate_shielding. now rewrite E, Hrows. }
  split; [exact H1|]. split; [exact H2|].
  intros [E | (lines & E & Hrows)].
  - rewrite (H1 E). split; reflexivity.
  - rewrite (H2 lines E Hrows). split; reflexivity.
Qed.

(** C10, as the code has it.  A run that finds the file and parses at least
    one row converts the seconds of the mission to a float for the fluence
    column.  When that succeeds, which it always does for a float duration,
    the run prints the hazard energy, the raw and the recommended thickness,
    saves the plot and returns [None]: the thickness is not returned.  When it
    fails, which it does exactly for an int duration whose seconds are beyond
    the range of binary64, the run ends with [OverflowError] after the parsed
    count is printed and returns nothing.  The value 0.0 is returned on the
    two error paths and only there; the other exceptions that can leave the
    function are the failures of opening or reading the file other than
    [FileNotFoundError]. *)
Theorem returns_none_on_success (fs : files) (data_file : string)
    (mission_duration_days : num) :
  (forall lines seconds, fs data_file = inr lines -> scan_lines lines <> [] ->
     to_float (seconds_in_mission mission_duration_days) = inr seconds ->
     exists max_hazard_energy design_thickness,
       hazard_selection (target_data seconds (scan_lines lines))
       = inr (max_hazard_energy, design_thickness)
       /\ calculate_shielding fs data_file mission_duration_days
          = ([print_starting mission_duration_days;
              print_reading (List.length lines);
              print_parsed (List.length (scan_lines lines));
              print_max_hazard max_hazard_energy;
              print_raw_thickness design_thickness;
              print_recommended (design_thickness * 1.2);
              savefig (map (fun r : ShieldingRow => (Energy_MeV r, Al_Thickness_mm r))
                           (target_data seconds (scan_lines lines)))
                      (design_thickness * 1.2);
              print_plot_saved],
             Return None))
  /\ (forall lines e, fs data_file = inr lines -> scan_lines lines <> [] ->
      to_float (seconds_in_mission mission_duration_days) = inl e ->
      calculate_shielding fs data_file mission_duration_days
      = ([print_starting mission_duration_days;
          print_reading (List.length lines);
          print_parsed (List.length (scan_lines lines))],
         Raise OverflowError))
  /\ (forall e,
        to_float (seconds_in_mission mission_duration_days) = inl e
        <-> e = OverflowError
            /\ exists days,
                 mission_duration_days = Int days
                 /\ PrimFloat.is_infinity (F64.of_Z (days * 86400)) = true)
  /\ (snd (calculate_shielding fs data_file mission_duration_days) = Return (Some 0)
      <-> (fs data_file = inl FileNotFoundError
           \/ exists lines, fs data_file = inr lines /\ scan_lines lines = []))
  /\ (snd (calculate_shielding fs data_file mission_duration_days) = Return None
      <-> exists lines,
            fs data_file = inr lines /\ scan_lines lines <> []
            /\ exists seconds,
                 to_float (seconds_in_mission mission_duration_days) = inr seconds)
  /\ (forall e,
        snd (calculate_shielding fs data_file mission_duration_days) = Raise e
        <-> (fs data_file = inl e /\ e <> FileNotFoundError)
            \/ (e = OverflowError
                /\ exists lines,
                     fs data_file = inr lines /\ scan_lines lines <> []
                     /\ to_float (seconds_in_mission mission_duration_days)
                        = inl OverflowError)).
Proof.
  assert (Hok : forall lines seconds,
     fs data_file = inr lines -> scan_lines lines <> [] ->
     to_float (seconds_in_mission mission_duration_days) = inr seconds ->
     exists max_hazard_energy design_thickness,
       hazard_selection (target_data seconds (scan_lines lines))
       = inr (max_hazard_energy, design_thickness)
       /\ calculate_shielding fs data_file mission_duration_days
          = ([print_starting mission_duration_days;
              print_reading (List.length lines);
              print_parsed (List.length (scan_lines lines));
              print_max_hazard max_hazard_energy;
              print_raw_thickness design_thickness;
              print_recommended (design_thickness * 1.2);
              savefig (map (fun r : ShieldingRow => (Energy_MeV r, Al_Thickness_mm r))
                           (target_data seconds (scan_lines lines)))
                      (design_thickness * 1.2);
              print_plot_saved],
             Return None)).
  { intros lines seconds E Hrows Hsec.
    destruct (shielding_report_returns mission_duration_days seconds
                (scan_lines lines) Hsec) as (e & t & Hsel & Hrep).
    exists e, t. split; trivial. unfold calculate_shielding. rewrite E.
    destruct (scan_lines lines) as [|r rows] eqn:Er; [congruence|].
    now rewrite Hrep. }
  assert (Hraise : forall lines e,
      fs data_file = inr lines -> scan_lines lines <> [] ->
      to_float (seconds_in_mission mission_duration_days) = inl e ->
      calculate_shielding fs data_file mission_duration_days
      = ([print_starting mission_duration_days;
          print_reading (List.length lines);
          print_parsed (List.length (scan_lines lines))],
         Raise OverflowError)).
  { intros lines e E Hrows Hsec. unfold calculate_shielding. rewrite E.
    destruct (scan_lines lines) as [|r rows] eqn:Er; [congruence|].
    now rewrite (shielding_report_raises _ _ _ Hsec). }
  split; [exact Hok|]. split; [exact Hraise|].
  split; [apply seconds_raise|].
  destruct (fs data_file) as [e0|lines] eqn:E.
  - assert (Hrun : snd (calculate_shielding fs data_file mission_duration_days)
                   = match e0 with
                     | FileNotFoundError => Return (Some 0)
                     | _ => Raise e0
                     end).
    { unfold calculate_shielding. rewrite E. now destruct e0. }
    rewrite Hrun. split; [|split].
    + split.
      * intros H. left. destruct e0; try discriminate. reflexivity.
      * intros [[= ->] | (l & ? & _)]; [reflexivity | discriminate].
    + split; [destruct e0; discriminate | intros (l & ? & _); discriminate].
    + intros e. split.
      * intros H. left. destruct e0; try discriminate; injection H as <-;
          (split; [reflexivity | discriminate]).
      * intros [[[= ->] Hne] | (_ & l & ? & _)]; [|discriminate].
        destruct e; congruence.
  - destruct (scan_lines lines) as [|r rows] eqn:Er.
    + unfold calculate_shielding. rewrite E, Er. simpl. split; [|split].
      * split; [|reflexivity]. intros _. right. now exists lines.
      * split; [discriminate|]. intros (l & [= <-] & Hne & _). congruence.
      * intros e. split; [discriminate|].
        intros [[? _] | (_ & l & [= <-] & Hne & _)]; [discriminate | congruence].
    + assert (Hne : scan_lines lines <> []) by congruence.
      destruct (to_float (seconds_in_mission mission_duration_days))
        as [e1|seconds] eqn:Hsec.
      * rewrite (Hraise lines e1 eq_refl Hne eq_refl). simpl.
        apply seconds_raise in Hsec as [-> _].
        split; [|split].
        -- split; [discriminate|].
           intros [? | (l & [= <-] & Hl)]; congruence.
        -- split; [discriminate|].
           intros (l & _ & _ & sec & ?). discriminate.
        -- intros e. split.
           ++ intros [= <-]. right. split; trivial. exists lines. auto.
           ++ intros [[? _] | [-> _]]; [discriminate | reflexivity].
      * destruct (Hok lines seconds eq_refl Hne eq_refl) as (e & t & _ & Hrun).
        rewrite Hrun. simpl. split; [|split].
        -- split; [discriminate|].
           intros [? | (l & [= <-] & Hl)]; congruence.
        -- split; [|reflexivity]. intros _. exists lines. eauto.
        -- intros e'. split; [discriminate|].
           intros [[? _] | (_ & l & _ & _ & ?)]; discriminate.
Qed.

End EntryPoint.

(** ** Mission durations that are not positive *)

Section Duration.

Import Py CalculateThickness.
Local Open Scope float_scope.

Context `{RT : Runtime}.

(** C4, as the code has it.  The duration is not checked: a run with a
    duration that is zero or negative is not rejected.  It reads and parses
    the file and reaches the fluence computation with its seconds, which are
    not positive.  When the seconds convert to a float, which they always do
    for a float duration, the fluences are computed with them and the run
    returns [None]; on a table without negative flux no row is then
    hazardous, and the run prints the fallback hazard energy 0.5, the
    fallback thickness 2.0 and the recommended 2.4 and saves the plot.  When
    the seconds do not convert, which happens for an int duration whose
    seconds are beyond the range of binary64, the fluence multiplication
    itself raises [OverflowError].  Nothing else is raised. *)
Theorem nonpositive_duration_not_rejected (fs : files) (data_file : string)
    (mission_duration_days : num) (lines : list str) :
  fs data_file = inr lines ->
  scan_lines lines <> [] ->
  nonpositive mission_duration_days ->
  (forall seconds,
     to_float (seconds_in_mission mission_duration_days) = inr seconds ->
     at_most_zero (Prim2SF seconds)
     /\ snd (calculate_shielding fs data_file mission_duration_days) = Return None
     /\ map (fun row : ShieldingRow => ElectronFluence row)
            (target_data seconds (scan_lines lines))
        = map (fun r : FluxRow => ElectronFlux r * seconds)
              (filter (fun r : FluxRow => 0.04 <=? Energy_MeV r) (scan_lines lines))
     /\ (Forall (fun r : FluxRow => (ElectronFlux r <? 0) = false)
                (scan_lines lines) ->
         calculate_shielding fs data_file mission_duration_days
         = ([print_starting mission_duration_days;
             print_reading (List.length lines);
             print_parsed (List.length (scan_lines lines));
             print_max_hazard 0.5;
             print_raw_thickness 2.0;
             print_recommended 2.4;
             savefig (map (fun r : ShieldingRow =>
                             (Energy_MeV r, Al_Thickness_mm r))
                          (target_data seconds (scan_lines lines)))
                     2.4;
             print_plot_saved],
            Return None)
         /\ (forall row, In row (target_data seconds (scan_lines lines)) ->
               (1e9 <? ElectronFluence row) = false)))
  /\ (forall e,
        to_float (seconds_in_mission mission_duration_days) = inl e ->
        (exists days, mission_duration_days = Int days)
        /\ calculate_shielding fs data_file mission_duration_days
           = ([print_starting mission_duration_days;
               print_reading (List.length lines);
               print_parsed (List.length (scan_lines lines))],
              Raise OverflowError))
  /\ (forall x, mission_duration_days = Float x ->
        to_float (seconds_in_mission mission_duration_days) = inr (x * 24 * 3600))
  /\ (exists rest,
        fst (calculate_shielding fs data_file mission_duration_days)
        = print_starting mission_duration_days
          :: print_reading (List.length lines)
          :: print_parsed (List.length (scan_lines lines)) :: rest)
  /\ (forall e,
        snd (calculate_shielding fs data_file mission_duration_days) = Raise e ->
        e = OverflowError).
Proof.
  intros E Hrows Hd.
  assert (Hconv : forall seconds,
            to_float (seconds_in_mission mission_duration_days) = inr seconds ->
            exists max_hazard_energy design_thickness,
              calculate_shielding fs data_file mission_duration_days
              = ([print_starting mission_duration_days;
                  print_reading (List.length lines);
                  print_parsed (List.length (scan_lines lines));
                  print_max_hazard max_hazard_energy;
                  print_raw_thickness design_thickness;
                  print_recommended (design_thickness * 1.2);
                  savefig (map (fun r : ShieldingRow =>
                                  (Energy_MeV r, Al_Thickness_mm r))
                               (target_data seconds (scan_lines lines)))
                          (design_thickness * 1.2);
                  print_plot_saved],
                 Return None)).
  { intros seconds Hsec.
    destruct (shielding_report_returns mission_duration_days seconds
                (scan_lines lines) Hsec) as (e & t & _ & Hrep).
    exists e, t. unfold calculate_shielding. rewrite E.
    destruct (scan_lines lines) as [|r rows] eqn:Er; [congruence|].
    now rewrite Hrep. }
  assert (Hfail : forall e,
            to_float (seconds_in_mission mission_duration_days) = inl e ->
            calculate_shielding fs data_file mission_duration_days
            = ([print_starting mission_duration_days;
                print_reading (List.length lines);
                print_parsed (List.length (scan_lines lines))],
               Raise OverflowError)).
  { intros e Hsec. unfold calculate_shielding. rewrite E.
    destruct (scan_lines lines) as [|r rows] eqn:Er; [congruence|].
    now rewrite (shielding_report_raises _ _ _ Hsec). }
  split; [|split; [|split; [|split]]].
  - intros seconds Hsec. split; [now apply (seconds_at_most_zero mission_duration_days)|].
    split; [|split].
    + destruct (Hconv seconds Hsec) as (e & t & ->). reflexivity.
    + rewrite target_data_rows, map_map. reflexivity.
    + intros Hflux.
      pose proof (no_hazard_when_nonpositive _ _ _ Hd Hsec Hflux) as Hnone.
      split.
      * unfold calculate_shielding. rewrite E.
        destruct (scan_lines lines) as [|r rows] eqn:Er; [congruence|].
        unfold shielding_report, hazard_selection. rewrite Hsec, Hnone.
        reflexivity.
      * intros row Hin.
        destruct (1e9 <? ElectronFluence row) eqn:Hhaz; trivial.
        assert (Hh : In row (hazardous_energies
                               (target_data seconds (scan_lines lines))))
          by now apply filter_In.
        rewrite Hnone in Hh. destruct Hh.
  - intros e Hsec. split; [|now apply (Hfail e)].
    apply seconds_raise in Hsec as (_ & days & -> & _). eauto.
  - intros x ->. reflexivity.
  - destruct (to_float (seconds_in_mission mission_duration_days))
      as [e|seconds] eqn:Hsec.
    + rewrite (Hfail e eq_refl). simpl. eauto.
    + destruct (Hconv seconds eq_refl) as (e & t & ->). simpl. eauto.
  - intros e Hr.
    destruct (to_float (seconds_in_mission mission_duration_days))
      as [e1|seconds] eqn:Hsec.
    + rewrite (Hfail e1 eq_refl) in Hr. simpl in Hr. congruence.
    + destruct (Hconv seconds eq_refl) as (e' & t & Hrun).
      rewrite Hrun in Hr. discriminate.
Qed.

End Duration.

Section RunExamples.

Import Py CalculateThickness Sample.
Local Open Scope string_scope.
Local Open Scope float_scope.

(** A thirty-day run on the sample table: both rows are hazardous, the
    larger energy is 5 MeV, and the thickness of its row is scaled by 1.2. *)
Example run_thirty_days :
  calculate_shielding sample_files "spenvis_sao.txt" (Int 30)
  = ([print_starting (Int 30); print_reading 10; print_parsed 2;
      print_max_hazard 5;
      print_raw_thickness 9.4222222222222225;
      print_recommended 11.306666666666667;
      savefig [(3, 5.496296296296296); (5, 9.4222222222222225)] 11.306666666666667;
      print_plot_saved],
     Return None).
Proof. vm_compute. reflexivity. Qed.

(** The seconds of a tenth of a day, given as a float, are the product taken
    in the order of the source. *)
Example seconds_of_a_tenth_of_a_day :
  to_float (seconds_in_mission (Float 0.1)) = inr 8640.0000000000018
  /\ to_float (seconds_in_mission (Int 30)) = inr 2592000
  /\ to_float (seconds_in_mission (Float 30)) = inr 2592000.
Proof. repeat split. Qed.

Example run_without_file :
  calculate_shielding (fun _ => inl FileNotFoundError) "spenvis_sao.txt" (Int 30)
  = ([print_starting (Int 30); print_not_found "spenvis_sao.txt";
      print_ensure_folder],
     Return (Some 0)).
Proof. reflexivity. Qed.

Example run_without_numbers :
  calculate_shielding (fun _ => inr [line "Energy Flux"; line "1.0"])
                      "spenvis_sao.txt" (Int 30)
  = ([print_starting (Int 30); print_reading 2; print_no_data],
     Return (Some 0)).
Proof. vm_compute. reflexivity. Qed.

(** Against C4 as the specification words it: runs of zero, of minus
    thirty and of minus one and a half days are not rejected.  Nothing is
    raised, the fluences are computed (negative for minus thirty days) and
    the fallback is reported. *)
Lemma nonpositive_duration_runs :
  calculate_shielding sample_files "spenvis_sao.txt" (Int 0)
  = ([print_starting (Int 0); print_reading 10; print_parsed 2;
      print_max_hazard 0.5; print_raw_thickness 2; print_recommended 2.4;
      savefig [(3, 5.496296296296296); (5, 9.4222222222222225)] 2.4;
      print_plot_saved],
     Return None)
  /\ snd (calculate_shielding sample_files "spenvis_sao.txt" (Int (-30)))
     = Return None
  /\ snd (calculate_shielding sample_files "spenvis_sao.txt" (Float (-1.5)))
     = Return None
  /\ to_float (seconds_in_mission (Int (-30))) = inr (-2592000)
  /\ map (fun row : ShieldingRow => ElectronFluence row)
         (target_data (-2592000) (scan_lines table))
     = [-2592000000000; -2592000000].
Proof. vm_compute. repeat split. Qed.

Lemma nonpositive_duration_not_rejected_witness :
  sample_files "spenvis_sao.txt" = inr table
  /\ nonpositive (Int (-30))
  /\ calculate_shielding sample_files "spenvis_sao.txt" (Int (-30))
     = ([print_starting (Int (-30)); print_reading 10; print_parsed 2;
         print_max_hazard 0.5; print_raw_thickness 2; print_recommended 2.4;
         savefig [(3, 5.496296296296296); (5, 9.4222222222222225)] 2.4;
         print_plot_saved],
        Return None).
Proof.
  split; [reflexivity|]. split; [simpl; lia|].
  destruct (nonpositive_duration_not_rejected (RT := runtime)
              sample_files "spenvis_sao.txt" (Int (-30)) table
              eq_refl
              ltac:(intros H; vm_compute in H; discriminate H)
              ltac:(simpl; lia)) as (Hconv & _).
  destruct (Hconv (-2592000) ltac:(vm_compute; reflexivity))
    as (_ & _ & _ & Hfallback).
  destruct (Hfallback ltac:(vm_compute; repeat constructor)) as [Hrun _].
  rewrite Hrun. vm_compute. reflexivity.
Defined.

(** An int duration whose seconds are beyond the range of binary64 is not
    rejected either: the run fails in the fluence multiplication, after the
    file is read and parsed. *)
Example huge_negative_duration :
  calculate_shielding sample_files "spenvis_sao.txt" (Int (- 10 ^ 400))
  = ([print_starting (Int (- 10 ^ 400)); print_reading 10; print_parsed 2],
     Raise OverflowError).
Proof. vm_compute. reflexivity. Qed.

(** Against C6 as the specification words it: for a tenth of a day given as
    a float the seconds of the code are 8640.000000000002 and not
    [0.1 * 86400 = 8640].  For a flux of 115740.74074074073 the fluence of
    the code is above 1e9 while [flux * (days * 86400)] and
    [(flux * days) * 86400] are below, so the run reports this row as the
    hazard where the fluence of the specification gives the fallback. *)
Lemma float_days_seconds_differ :
  to_float (seconds_in_mission (Float 0.1)) = inr 8640.0000000000018
  /\ 0.1 * 86400 = 8640
  /\ map (fun row : ShieldingRow => ElectronFluence row)
         (target_data 8640.0000000000018
            [ {| Energy_MeV := 3; ElectronFlux := 0x1.c41cbda12f684p+16 |} ])
     = [1000000000.0000001]
  /\ 0x1.c41cbda12f684p+16 * (0.1 * 86400) = 999999999.99999988
  /\ (0x1.c41cbda12f684p+16 * 0.1) * 86400 = 999999999.99999988
  /\ (1e9 <? 1000000000.0000001) = true
  /\ (1e9 <? 999999999.99999988) = false
  /\ shielding_report (Float 0.1)
       [ {| Energy_MeV := 3; ElectronFlux := 0x1.c41cbda12f684p+16 |} ]
     = ([print_max_hazard 3;
         print_raw_thickness 5.496296296296296;
         print_recommended 6.5955555555555554;
         savefig [(3, 5.496296296296296)] 6.5955555555555554;
         print_plot_saved],
        Return None).
Proof. vm_compute. repeat split. Qed.

(** Against C10 as the specification words it: with the file found and two
    rows parsed, a duration of [10 ** 400] days does not return [None].  The
    conversion of its seconds raises [OverflowError] in the fluence
    multiplication, after the parsed count is printed.  The largest seconds
    that convert are [2 ** 1024 - 2 ** 970 - 1]. *)
Lemma huge_duration_raises :
  calculate_shielding sample_files "spenvis_sao.txt" (Int (10 ^ 400))
  = ([print_starting (Int (10 ^ 400)); print_reading 10; print_parsed 2],
     Raise OverflowError)
  /\ to_float (seconds_in_mission (Int (10 ^ 400))) = inl OverflowError
  /\ to_float (Int (2 ^ 1024 - 2 ^ 970)) = inl OverflowError
  /\ to_float (Int (2 ^ 1024 - 2 ^ 970 - 1)) = inr 0x1.fffffffffffffp+1023.
Proof. vm_compute. repeat split. Qed.

End RunExamples.

(** * Further properties of the scripts *)

(** ** Slices of slices *)

Section SlicingLaws.

Import Py TrajectoryPropagator.

Lemma last_nth_error {A} (xs : list A) (d : A) :
  xs <> [] -> nth_error xs (List.length xs - 1) = Some (last xs d).
Proof.
  induction xs as [|x t IH]; [congruence|]. intros _.
  destruct t as [|y t']; [reflexivity|].
  change (last (x :: y :: t') d) with (last (y :: t') d).
  rewrite <- IH by discriminate. simpl. now rewrite Nat.sub_0_r.
Qed.

(** Taking every [b]-th element and then every [a]-th of those is taking
    every [a*b]-th element.  A stride of one keeps everything, and a stride
    that reaches the length keeps the first element only. *)
Theorem downsample_compose {A} (a b : nat) (xs : list A) :
  0 < a -> 0 < b ->
  downsample a (downsample b xs) = downsample (a * b) xs
  /\ downsample 1 xs = xs
  /\ (List.length xs <= b -> downsample b xs = firstn 1 xs).
Proof.
  intros Ha Hb. unfold downsample. split; [|split].
  - apply nth_error_ext. intros i.
    rewrite !slice_from_nth_error by lia. simpl. f_equal. lia.
  - apply nth_error_ext. intros i.
    rewrite slice_from_nth_error by lia. simpl. f_equal. lia.
  - intros Hlen. apply nth_error_ext. intros i.
    rewrite slice_from_nth_error by lia. simpl.
    destruct i as [|j].
    + destruct xs; reflexivity.
    + rewrite (proj2 (nth_error_None xs (S j * b))) by nia.
      symmetry. apply nth_error_None. destruct xs; simpl; lia.
Qed.

Lemma downsample_compose_witness :
  downsample 5 (downsample 6 sample_history) = downsample 30 sample_history
  /\ downsample 2 (downsample 3 sample_history) = downsample 6 sample_history.
Proof.
  split.
  - apply (downsample_compose 5 6 sample_history); lia.
  - apply (downsample_compose 2 3 sample_history); lia.
Defined.

Lemma downsample_last_index {A} (k : nat) (xs : list A) (d : A) :
  0 < k -> xs <> [] ->
  nth_error xs (k * ((List.length xs - 1) / k)) = Some (last (downsample k xs) d).
Proof.
  intros Hk Hne.
  assert (HN : 0 < List.length xs) by (destruct xs; [congruence | simpl; lia]).
  assert (Hds : downsample k xs <> []).
  { destruct xs; [congruence|]. discriminate. }
  pose proof (last_nth_error (downsample k xs) d Hds) as Hl.
  unfold downsample in Hl at 1 2.
  rewrite slice_from_nth_error, slice_from_length in Hl by trivial. simpl in Hl.
  assert (Hq : (List.length xs + k - 1) / k - 1 = (List.length xs - 1) / k).
  { replace (List.length xs + k - 1) with ((List.length xs - 1) + 1 * k) by lia.
    rewrite Nat.div_add by lia. lia. }
  now rewrite Hq, Nat.mul_comm in Hl.
Qed.

(** The last element kept is the one at the largest multiple of the stride
    inside the list: up to [k - 1] elements after it are left out, and its
    index is the last index of the list exactly when [k] divides [N - 1]. *)
Theorem downsample_last {A} (k : nat) (xs : list A) (d : A) :
  0 < k -> xs <> [] ->
  nth_error xs (k * ((List.length xs - 1) / k)) = Some (last (downsample k xs) d)
  /\ k * ((List.length xs - 1) / k) <= List.length xs - 1
     < k * ((List.length xs - 1) / k) + k
  /\ (k * ((List.length xs - 1) / k) = List.length xs - 1
      <-> (List.length xs - 1) mod k = 0)
  /\ ((List.length xs - 1) mod k = 0 -> last (downsample k xs) d = last xs d).
Proof.
  intros Hk Hne.
  pose proof (downsample_last_index k xs d Hk Hne) as Hl.
  pose proof (Nat.div_mod_eq (List.length xs - 1) k) as Hdm.
  pose proof (Nat.mod_upper_bound (List.length xs - 1) k) as Hub.
  split; [exact Hl|]. split; [lia|]. split; [lia|].
  intros Hz. rewrite Hz, Nat.add_0_r in Hdm. rewrite <- Hdm in Hl.
  rewrite (last_nth_error xs d Hne) in Hl. congruence.
Qed.

Lemma downsample_last_witness :
  nth_error (all_times sample_history) (6 * ((13 - 1) / 6))
  = Some (last (downsample 6 (all_times sample_history)) PrimFloat.zero)
  /\ nth_error (all_times sample_history) (5 * ((13 - 1) / 5))
     = Some (last (downsample 5 (all_times sample_history)) PrimFloat.zero).
Proof.
  split.
  - apply (downsample_last 6 (all_times sample_history) PrimFloat.zero);
      [lia | discriminate].
  - apply (downsample_last 5 (all_times sample_history) PrimFloat.zero);
      [lia | discriminate].
Defined.

End SlicingLaws.

(** ** The two export files side by side *)

Section ExportFiles.

Import Py Format TrajectoryPropagator.

Context `{EPH : Ephemeris}.

(** The SPENVIS file has eleven lines around its records, and a record for
    every sixth entry of the history: ceil(N/6) of them, which the exporter
    also prints.  [$$BEGIN] is the tenth line, the record of the first entry
    the eleventh, and [$$END] the last. *)
Theorem spenvis_file_size (results_dict : results) (output_filename : string) :
  exists lines,
    export_results_for_spenvis results_dict output_filename
    = ([print_generating output_filename;
        print_downsampling (List.length results_dict)
                           ((List.length results_dict + 5) / 6);
        file_written output_filename lines;
        print_success output_filename],
       None)
    /\ List.length lines = 11 + (List.length results_dict + 5) / 6
    /\ 6 * (List.length lines - 11) < List.length results_dict + 6
    /\ nth_error lines 9 = Some "$$BEGIN"%string
    /\ nth_error lines (List.length lines - 1) = Some "$$END"%string
    /\ (forall first rest, results_dict = first :: rest ->
          nth_error lines 10 = Some (spenvis_line (fst first) (snd first))).
Proof.
  pose proof (slice_from_length 6 results_dict ltac:(lia)) as Hlen.
  fold (downsample 6 results_dict) in Hlen.
  replace (List.length results_dict + 6 - 1) with (List.length results_dict + 5)
    in Hlen by lia.
  assert (Hh : List.length spenvis_header = 9) by reflexivity.
  set (records := map (fun e => spenvis_line (fst e) (snd e))
                      (downsample 6 results_dict)).
  assert (Hr : List.length records = (List.length results_dict + 5) / 6).
  { unfold records. now rewrite length_map. }
  exists (spenvis_header ++ ["$$BEGIN"%string] ++ records ++ ["$$END"%string]).
  split; [|split; [|split; [|split; [|split]]]].
  - unfold export_results_for_spenvis. rewrite spenvis_data_lines.
    unfold all_times. rewrite !length_map.
    change (downsample 6 (map fst results_dict))
      with (slice_from 6 0 (map fst results_dict)).
    rewrite slice_from_map, length_map.
    change (slice_from 6 0 results_dict) with (downsample 6 results_dict).
    rewrite Hlen. reflexivity.
  - rewrite !length_app, Hh, Hr.
    generalize ((List.length results_dict + 5) / 6). intros q. simpl. lia.
  - rewrite !length_app, Hh, Hr.
    pose proof (Nat.div_mod_eq (List.length results_dict + 5) 6) as Hdm.
    pose proof (Nat.mod_upper_bound (List.length results_dict + 5) 6) as Hub.
    revert Hdm Hub.
    generalize ((List.length results_dict + 5) / 6)
               ((List.length results_dict + 5) mod 6).
    intros q r Hdm Hub. simpl. lia.
  - reflexivity.
  - rewrite !app_assoc.
    rewrite nth_error_app2; rewrite !length_app, Hh, Hr;
      generalize ((List.length results_dict + 5) / 6); intros q;
      simpl; [|lia].
    replace (_ - _) with 0 by lia. reflexivity.
  - intros first rest E. unfold records. rewrite E. reflexivity.
Qed.

(** Every entry the OEM exporter keeps is one the SPENVIS exporter keeps as
    well: the OEM row of index [i] and the SPENVIS record of index [5*i] are
    made from the same entry of the history, hence for the same epoch and
    with the same position. *)
Theorem oem_rows_among_spenvis_records (results_dict : results) (i : nat)
    (row : oem_row) :
  (exists rows, export_to_ccsds_oem_rows results_dict = inr rows
                /\ nth_error rows i = Some row) ->
  exists entry,
    nth_error results_dict (30 * i) = Some entry
    /\ nth_error (downsample 6 results_dict) (5 * i) = Some entry
    /\ row = oem_row_of entry
    /\ oem_position row
       = position_km (snd entry) (state_gan_wrt_jup (fst entry))
    /\ exists records,
         spenvis_loop 0 (downsample 6 (all_times results_dict))
                        (downsample 6 (all_states results_dict)) = inr records
         /\ nth_error records (5 * i)
            = Some (spenvis_line (fst entry) (snd entry)).
Proof.
  intros (rows & Hrows & Hrow).
  unfold export_to_ccsds_oem_rows in Hrows.
  destruct (downsample step_size (all_times results_dict)) eqn:Et; [discriminate|].
  rewrite <- Et, oem_data_rows in Hrows. injection Hrows as <-.
  rewrite nth_error_map in Hrow.
  destruct (nth_error (downsample step_size results_dict) i) as [entry|] eqn:Ei;
    [|discriminate].
  injection Hrow as <-.
  unfold downsample, step_size in Ei.
  rewrite slice_from_nth_error in Ei by lia. simpl in Ei.
  assert (E6 : nth_error (downsample 6 results_dict) (5 * i) = Some entry).
  { unfold downsample. rewrite slice_from_nth_error by lia. simpl.
    rewrite <- Ei. f_equal. lia. }
  exists entry. split; [rewrite <- Ei; f_equal; lia|].
  split; [exact E6|]. split; [reflexivity|]. split; [reflexivity|].
  eexists. split; [apply spenvis_data_lines|].
  rewrite nth_error_map, E6. reflexivity.
Qed.

End ExportFiles.

Section ExportExamples.

Import Py TrajectoryPropagator SampleEphemeris.

Lemma oem_rows_among_spenvis_records_witness :
  exists entry,
    nth_error (map history_entry (map F64.of_Z
                 (map Z.of_nat (seq 0 40)))) (30 * 1) = Some entry
    /\ fst entry = 30%float.
Proof.
  destruct (oem_rows_among_spenvis_records (EPH := ephemeris)
              (map history_entry (map F64.of_Z (map Z.of_nat (seq 0 40))))
              1
              (oem_row_of (history_entry 30%float)))
    as (entry & H30 & _ & Hrow & _).
  - eexists. split; vm_compute; reflexivity.
  - exists entry. split; [exact H30|].
    vm_compute in H30. injection H30 as <-. reflexivity.
Defined.

End ExportExamples.

(** ** The OEM file *)

Section OemFile.

Import Py Format TrajectoryPropagator OemExport.

Lemma substring_prefix (s t : string) :
  substring 0 (String.length s) (s ++ t) = s.
Proof.
  induction s as [|c s IH]; simpl.
  - destruct t; reflexivity.
  - now rewrite IH.
Qed.

Lemma drop_last_app (s t : string) :
  drop_last (String.length t) (s ++ t) = s.
Proof.
  unfold drop_last. rewrite string_length_app, Nat.add_sub.
  apply substring_prefix.
Qed.

Lemma fixed_digits_split (n : N) :
  fixed_digits 6 n = (fixed_digits 3 (n / 1000) ++ fixed_digits 3 n)%string.
Proof.
  assert (Happ : forall a b c : string,
            ((a ++ b) ++ c = a ++ b ++ c)%string).
  { intros a b c. induction a as [|x a IH]; simpl; congruence. }
  change (fixed_digits 6 n)
    with (((fixed_digits 3 (n / 10 / 10 / 10)
            ++ String (digit (n / 10 / 10)) "")
           ++ String (digit (n / 10)) "")
          ++ String (digit n) "")%string.
  change (fixed_digits 3 n)
    with (((String (digit (n / 10 / 10)) "")
           ++ String (digit (n / 10)) "")
          ++ String (digit n) "")%string.
  rewrite !N.Div0.div_div. change (10 * 10 * 10)%N with 1000%N.
  change (10 * 10)%N with 100%N.
  rewrite !Happ. reflexivity.
Qed.

(** The time stamp of a data line ends with the milliseconds of the date:
    the microsecond field cut after its third digit, not rounded. *)
Theorem oem_time_stamp_truncates (date : string) (microsecond : N) :
  drop_last 3 (strftime_f (date, microsecond))
  = (date ++ "." ++ fixed_digits 3 (microsecond / 1000))%string
  /\ drop_last 3 (strftime_f (date, 999999%N)) = (date ++ ".999")%string.
Proof.
  assert (Happ : forall a b c : string,
            ((a ++ b) ++ c = a ++ b ++ c)%string).
  { intros a b c. induction a as [|x a IH]; simpl; congruence. }
  assert (H : forall us,
    drop_last 3 (strftime_f (date, us))
    = (date ++ "." ++ fixed_digits 3 (us / 1000))%string).
  { intros us. unfold strftime_f. simpl fst. simpl snd.
    rewrite fixed_digits_split.
    replace 3 with (String.length (fixed_digits 3 us))
      by apply fixed_digits_shape.
    rewrite <- !Happ. apply drop_last_app. }
  split; [apply H|]. rewrite H. reflexivity.
Qed.

Context `{EPH : Ephemeris} `{CAL : Calendar}.

(** The data loop never indexes past the states, writes the lines of the
    entries whose epochs convert, in order, and stops at the first epoch that
    does not convert. *)
Lemma oem_write_loop_entries (done rest : results) :
  oem_write_loop (List.length done) (map fst rest) (map snd (done ++ rest))
  = (map oem_line_of (firstn (converted rest) rest),
     if converted rest =? List.length rest then None
     else Some raised_by_datetime).
Proof.
  revert done. induction rest as [|[t s] rest IH]; intros done; simpl; trivial.
  rewrite (nth_error_beside done t s rest).
  destruct (utc t) as [stamp|] eqn:Et; [|reflexivity].
  specialize (IH (done ++ [(t, s)])).
  rewrite length_app, Nat.add_1_r, <- app_assoc in IH. simpl in IH.
  rewrite IH. simpl. unfold oem_line_of at 2, stamp_of. simpl. rewrite Et.
  reflexivity.
Qed.

Lemma converted_all (entries : results) :
  (forall entry, In entry entries -> utc (fst entry) <> None) ->
  converted entries = List.length entries.
Proof.
  induction entries as [|e rest IH]; intros H; simpl; trivial.
  destruct (utc (fst e)) eqn:E.
  - f_equal. apply IH. intros entry Hin. apply H. now right.
  - exfalso. apply (H e); [now left | exact E].
Qed.

Lemma converted_bound (entries : results) :
  converted entries <= List.length entries
  /\ (converted entries < List.length entries ->
      exists entry, nth_error entries (converted entries) = Some entry
                    /\ utc (fst entry) = None).
Proof.
  induction entries as [|e rest [IH1 IH2]]; simpl; [split; lia|].
  destruct (utc (fst e)) eqn:E.
  - split; [lia|]. intros H. apply IH2. lia.
  - split; [lia|]. intros _. exists e. now split.
Qed.

End OemFile.

Section OemFileLayout.

Import Py Format TrajectoryPropagator OemExport.

Context `{EPH : Ephemeris} `{CAL : Calendar}.

Lemma last_map {A B} (f : A -> B) (xs : list A) (d : A) :
  last (map f xs) (f d) = f (last xs d).
Proof.
  induction xs as [|x t IH]; trivial.
  destruct t as [|y t']; [reflexivity | exact IH].
Qed.

(** What the exporter does once the history is not empty, in terms of the
    entries it keeps. *)
Lemma export_to_ccsds_oem_kept (first : float * state) (rest : results)
    (output_filename : string) :
  let results_dict := first :: rest in
  let kept := downsample step_size results_dict in
  export_to_ccsds_oem results_dict output_filename
  = let started :=
      [print_generating output_filename;
       print_downsampling (List.length results_dict) (List.length kept)] in
    match utc (fst first), utc (fst (last kept first)) with
    | Some t_start, Some t_stop =>
        let lines :=
          oem_header ++ oem_meta_end (fst t_start) (fst t_stop)
          ++ map oem_line_of (firstn (converted kept) kept) in
        if converted kept =? List.length kept
        then (started ++ [file_written output_filename lines;
                          print_success output_filename], None)
        else (started ++ [file_written output_filename lines],
              Some raised_by_datetime)
    | _, _ => (started ++ [file_written output_filename oem_header],
               Some raised_by_datetime)
    end.
Proof.
  intros results_dict kept. unfold export_to_ccsds_oem.
  assert (Et : downsample step_size (all_times results_dict) = map fst kept).
  { unfold all_times, downsample, kept. apply slice_from_map. }
  assert (Es : downsample step_size (all_states results_dict) = map snd kept).
  { unfold all_states, downsample, kept. apply slice_from_map. }
  rewrite Et, Es. unfold all_times. rewrite !length_map.
  assert (Ek : exists tl, kept = first :: tl).
  { unfold kept, downsample, results_dict. simpl. eauto. }
  destruct Ek as [tl Ek].
  assert (Elast : last (map fst kept) (fst first) = fst (last kept first))
    by apply last_map.
  assert (Em : map fst kept = fst first :: map fst tl)
    by (rewrite Ek; reflexivity).
  pose proof (oem_write_loop_entries [] kept) as Hloop.
  change (oem_write_loop 0 (map fst kept) (map snd kept)
          = (map oem_line_of (firstn (converted kept) kept),
             if converted kept =? List.length kept then None
             else Some raised_by_datetime)) in Hloop.
  rewrite Hloop, Em. cbv iota beta. rewrite <- Em, Elast.
  destruct (utc (fst first)) as [t_start|]; [|reflexivity].
  destruct (utc (fst (last kept first))) as [t_stop|]; [|reflexivity].
  destruct (converted kept =? List.length kept); reflexivity.
Qed.

(** When the history is not empty and the epochs of the kept entries all
    convert to dates, the OEM file is the ten header lines, the start time
    of the first entry, the stop time of the last kept entry, the end of the
    metadata, and one data line for every thirtieth entry, in order:
    ceil(N/30) of them.  The stop time belongs to the entry at index
    30 * ((N-1)/30), not to the last entry of the history. *)
Theorem oem_file_layout (first : float * state) (rest : results)
    (output_filename : string) :
  (forall entry, In entry (downsample step_size (first :: rest)) ->
                 utc (fst entry) <> None) ->
  exists last_kept,
    nth_error (first :: rest) (30 * (List.length rest / 30)) = Some last_kept
    /\ export_to_ccsds_oem (first :: rest) output_filename
       = ([print_generating output_filename;
           print_downsampling (S (List.length rest)) ((S (List.length rest) + 29) / 30);
           file_written output_filename
             (oem_header
              ++ oem_meta_end (fst (stamp_of (fst first)))
                              (fst (stamp_of (fst last_kept)))
              ++ map oem_line_of (downsample step_size (first :: rest)));
           print_success output_filename],
          None)
    /\ List.length (map oem_line_of (downsample step_size (first :: rest)))
       = (S (List.length rest) + 29) / 30.
Proof.
  intros Hconv.
  set (results_dict := first :: rest) in *.
  set (kept := downsample step_size results_dict) in *.
  assert (Hlen : List.length kept = (S (List.length rest) + 29) / 30).
  { unfold kept, downsample, step_size.
    rewrite slice_from_length by lia. simpl List.length.
    f_equal. lia. }
  exists (last kept first). split; [|split].
  - pose proof (downsample_last_index step_size results_dict first
                  ltac:(unfold step_size; lia) ltac:(discriminate)) as Hl.
    fold kept in Hl. change step_size with 30 in Hl.
    replace (List.length results_dict - 1) with (List.length rest) in Hl
      by (unfold results_dict; simpl; lia).
    exact Hl.
  - pose proof (export_to_ccsds_oem_kept first rest output_filename) as Hrun.
    cbv zeta in Hrun. fold results_dict kept in Hrun. rewrite Hrun.
    assert (Hfirst : In first kept).
    { unfold kept, downsample, results_dict. simpl. now left. }
    assert (Hlast : In (last kept first) kept).
    { assert (Hne : kept <> []) by (intros E; rewrite E in Hfirst; destruct Hfirst).
      pose proof (last_nth_error kept first Hne) as Hn.
      eapply nth_error_In. exact Hn. }
    unfold stamp_of.
    destruct (utc (fst first)) as [t_start|] eqn:E1;
      [|exfalso; exact (Hconv first Hfirst E1)].
    destruct (utc (fst (last kept first))) as [t_stop|] eqn:E2;
      [|exfalso; exact (Hconv _ Hlast E2)].
    rewrite (converted_all kept Hconv), Nat.eqb_refl, firstn_all, Hlen.
    reflexivity.
  - now rewrite length_map.
Qed.

(** How the OEM exporter stops early.  On an empty history it raises
    [IndexError] after the ten header lines are in the file.  When the first
    or the last kept epoch does not convert to a date it stops with the same
    ten lines written.  When a later epoch does not convert, the file holds
    the header, the metadata and the data lines of the entries before that
    epoch, and nothing after.  In none of these cases is the success message
    printed, and [IndexError] arises on the empty history only. *)
Theorem oem_export_stops (output_filename : string) :
  export_to_ccsds_oem [] output_filename
  = ([print_generating output_filename; print_downsampling 0 0;
      file_written output_filename oem_header],
     Some raised_IndexError)
  /\ forall (first : float * state) (rest : results),
       let kept := downsample step_size (first :: rest) in
       let started :=
         [print_generating output_filename;
          print_downsampling (S (List.length rest)) (List.length kept)] in
       ((utc (fst first) = None \/ utc (fst (last kept first)) = None) ->
        export_to_ccsds_oem (first :: rest) output_filename
        = (started ++ [file_written output_filename oem_header],
           Some raised_by_datetime))
       /\ (forall t_start t_stop,
             utc (fst first) = Some t_start ->
             utc (fst (last kept first)) = Some t_stop ->
             converted kept < List.length kept ->
             export_to_ccsds_oem (first :: rest) output_filename
             = (started
                ++ [file_written output_filename
                      (oem_header ++ oem_meta_end (fst t_start) (fst t_stop)
                       ++ map oem_line_of (firstn (converted kept) kept))],
                Some raised_by_datetime)
             /\ exists entry,
                  nth_error kept (converted kept) = Some entry
                  /\ utc (fst entry) = None)
       /\ snd (export_to_ccsds_oem (first :: rest) output_filename)
          <> Some raised_IndexError.
Proof.
  split; [reflexivity|]. intros first rest kept started.
  pose proof (export_to_ccsds_oem_kept first rest output_filename) as Hrun.
  cbv zeta in Hrun. fold kept in Hrun. simpl List.length in Hrun.
  fold started in Hrun.
  split; [|split].
  - intros [E | E]; rewrite Hrun, E; [reflexivity|].
    destruct (utc (fst first)); reflexivity.
  - intros t_start t_stop E1 E2 Hlt. rewrite Hrun, E1, E2.
    rewrite (proj2 (Nat.eqb_neq (converted kept) (List.length kept)))
      by (apply Nat.lt_neq; exact Hlt).
    split; [reflexivity|]. now apply converted_bound.
  - rewrite Hrun.
    destruct (utc (fst first)); [|cbn [snd]; discriminate].
    destruct (utc (fst (last kept first))); [|cbn [snd]; discriminate].
    destruct (converted kept =? _); cbn [snd]; discriminate.
Qed.

End OemFileLayout.

Section OemExamples.

Import Py Format TrajectoryPropagator OemExport SampleCalendar SampleEphemeris.

Lemma oem_file_layout_witness :
  exists lines,
    export_to_ccsds_oem (map history_entry (map F64.of_Z
                           (map Z.of_nat (seq 0 40)))) "orbit.oem"
    = ([print_generating "orbit.oem"; print_downsampling 40 2;
        file_written "orbit.oem" lines; print_success "orbit.oem"], None)
    /\ nth_error lines 10 = Some "START_TIME           = 2000-01-01T12:00:00"%string
    /\ nth_error lines 11 = Some "STOP_TIME            = 2000-01-01T12:00:30"%string
    /\ nth_error lines 15
       = Some ("2000-01-01T12:00:30.000 1000001.03000 2.00000 3.00000"
               ++ " 0.001000 0.000000 0.000000")%string
    /\ List.length lines = 16.
Proof.
  destruct (oem_file_layout (EPH := ephemeris) (CAL := calendar)
              (history_entry 0%float)
              (map history_entry (map F64.of_Z (map Z.of_nat (seq 1 39))))
              "orbit.oem")
    as (last_kept & Hlast & Hrun & _).
  - intros entry Hin. vm_compute in Hin.
    destruct Hin as [<- | [<- | []]]; vm_compute; discriminate.
  - vm_compute in Hlast. injection Hlast as <-.
    eexists. split; [exact Hrun|].
    vm_compute. repeat split; reflexivity.
Defined.

(** A history of seventy entries whose thirty-first epoch is a NaN: the
    epochs kept are those of the indices 0, 30 and 60, the start and the
    stop time convert, and the loop stops at its second round. *)
Lemma oem_export_stops_witness :
  exists lines,
    export_to_ccsds_oem
      (map history_entry
         (map F64.of_Z (map Z.of_nat (seq 0 30))
          ++ [nan] ++ map F64.of_Z (map Z.of_nat (seq 31 39))))
      "orbit.oem"
    = ([print_generating "orbit.oem"; print_downsampling 70 3;
        file_written "orbit.oem" lines],
       Some raised_by_datetime)
    /\ List.length lines = 15
    /\ nth_error lines 11 = Some "STOP_TIME            = 2000-01-01T12:01:00"%string
    /\ nth_error lines 14
       = Some ("2000-01-01T12:00:00.000 1000001.00000 2.00000 3.00000"
               ++ " 0.001000 0.000000 0.000000")%string.
Proof.
  destruct (oem_export_stops (EPH := ephemeris) (CAL := calendar) "orbit.oem")
    as [_ H].
  specialize (H (history_entry 0%float)
                (map history_entry
                   (map F64.of_Z (map Z.of_nat (seq 1 29))
                    ++ [nan] ++ map F64.of_Z (map Z.of_nat (seq 31 39))))).
  cbv zeta in H. destruct H as (_ & Hmid & _).
  destruct (Hmid ("2000-01-01T12:00:00"%string, 0%N)
                 ("2000-01-01T12:01:00"%string, 0%N)) as [Hrun _].
  - vm_compute. reflexivity.
  - vm_compute. reflexivity.
  - vm_compute. lia.
  - eexists. split; [exact Hrun|]. vm_compute. repeat split; reflexivity.
Defined.

End OemExamples.

(** ** Lines, delimiters and counts *)

Section ScannerLaws.

Import Py CalculateThickness.

Context `{RT : Runtime}.

(** A line is read through its first two tokens only. *)
Lemma scan_line_firstn (line : str) :
  scan_line line
  = match firstn 2 (parts_of line) with
    | [t0; t1] =>
        match py_float t0, py_float t1 with
        | Some energy, Some flux =>
            [ {| Energy_MeV := energy; ElectronFlux := flux |} ]
        | _, _ => []
        end
    | _ => []
    end.
Proof.
  unfold scan_line. destruct (parts_of line) as [|t0 [|t1 others]]; reflexivity.
Qed.

(** Two lines whose first two tokens are the same give the same rows: which
    separators stand between the tokens, how many, what surrounds the line
    and what follows the second column play no part. *)
Theorem scan_line_delimiters (line1 line2 : str) (tokens1 tokens2 : list str) :
  tokenization line1 tokens1 -> tokenization line2 tokens2 ->
  firstn 2 tokens1 = firstn 2 tokens2 ->
  scan_line line1 = scan_line line2.
Proof.
  intros H1 H2 E.
  rewrite (tokenization_unique _ _ H1 _ (parts_of_tokens line1)) in E.
  rewrite (tokenization_unique _ _ H2 _ (parts_of_tokens line2)) in E.
  now rewrite !scan_line_firstn, E.
Qed.

Lemma scan_line_length (line : str) : List.length (scan_line line) <= 1.
Proof.
  rewrite scan_line_firstn.
  destruct (firstn 2 (parts_of line)) as [|t0 [|t1 [|t2 ts]]]; simpl; try lia.
  destruct (py_float t0), (py_float t1); simpl; lia.
Qed.

Lemma scan_lines_length (lines : list str) :
  List.length (scan_lines lines) <= List.length lines.
Proof.
  induction lines as [|l lines IH]; [reflexivity|].
  change (scan_lines (l :: lines)) with (scan_line l ++ scan_lines lines)%list.
  rewrite length_app. pose proof (scan_line_length l). simpl. lia.
Qed.

(** When the file opens, a run announces the number of lines read right
    after its banner.  The number of data points it announces is the number
    of rows scanned, which is positive and at most the number of lines; it
    announces that no data was found exactly when no row was scanned, and
    never both. *)
Theorem parsed_at_most_read (fs : files) (data_file : string)
    (mission_duration_days : num) (lines : list str) :
  fs data_file = inr lines ->
  let events := fst (calculate_shielding fs data_file mission_duration_days) in
  (exists rest,
     events = print_starting mission_duration_days
              :: print_reading (List.length lines) :: rest)
  /\ (forall n, In (print_parsed n) events ->
        n = List.length (scan_lines lines) /\ 0 < n <= List.length lines)
  /\ (In print_no_data events <-> scan_lines lines = [])
  /\ (scan_lines lines <> [] ->
      In (print_parsed (List.length (scan_lines lines))) events).
Proof.
  intros Hfs events. unfold events, calculate_shielding. rewrite Hfs.
  pose proof (scan_lines_length lines) as Hlen.
  destruct (scan_lines lines) as [|r rows] eqn:E.
  - simpl. split; [eauto|]. split; [|split].
    + intros n [H | [H | [H | []]]]; discriminate.
    + split; trivial. intros _. right. right. now left.
    + congruence.
  - destruct (shielding_report mission_duration_days (r :: rows))
      as [report result] eqn:Er.
    assert (Hrep : ~ In print_no_data report
                   /\ forall n, ~ In (print_parsed n) report).
    { unfold shielding_report in Er.
      destruct (to_float _) as [e0 | seconds];
        [injection Er as <- <-; split; [|intros n]; intros []|].
      destruct (hazard_selection _) as [e | [m t]]; injection Er as <- <-.
      - split; [|intros n]; intros [].
      - split; [|intros n]; simpl; intros H;
          repeat (destruct H as [H | H]; [discriminate|]); exact H. }
    destruct Hrep as [Hno Hparsed].
    simpl fst. simpl app. split; [eauto|]. split; [|split].
    + intros n [H | [H | [H | H]]]; try discriminate.
      * injection H as <-. simpl in *. split; [reflexivity | lia].
      * now apply Hparsed in H.
    + split; [|discriminate].
      intros [H | [H | [H | H]]]; try discriminate. now apply Hno in H.
    + intros _. right. right. now left.
Qed.

End ScannerLaws.

Section ScannerLawsExamples.

Import Py CalculateThickness Sample.
Local Open Scope float_scope.

Lemma scan_line_delimiters_witness :
  scan_line (line "3.0,1000000.0")
  = scan_line (line "  3.0 ,	 1000000.0   7 more columns,")
  /\ scan_line (line "3.0,1000000.0")
     = [ {| Energy_MeV := 3.0; ElectronFlux := 1000000.0 |} ].
Proof.
  split; [|vm_compute; reflexivity].
  apply (scan_line_delimiters (RT := runtime) _ _
           [line "3.0"; line "1000000.0"]
           (map line ["3.0"; "1000000.0"; "7"; "more"; "columns"]%string)).
  - change [line "3.0"; line "1000000.0"]
      with (parts_of (line "3.0,1000000.0")).
    apply parts_of_tokens.
  - change (map line ["3.0"; "1000000.0"; "7"; "more"; "columns"]%string)
      with (parts_of (line "  3.0 ,	 1000000.0   7 more columns,")).
    apply parts_of_tokens.
  - reflexivity.
Defined.

Lemma parsed_at_most_read_witness :
  In (print_parsed 2)
     (fst (calculate_shielding sample_files "spenvis_sao.txt"%string (Int 30)))
  /\ (2 <= 10)%nat.
Proof.
  pose proof (parsed_at_most_read (RT := runtime) sample_files
                "spenvis_sao.txt"%string (Int 30) table eq_refl) as H.
  cbv zeta in H. destruct H as (_ & Hparsed & _ & Hin).
  assert (H2 : In (print_parsed 2)
                 (fst (calculate_shielding sample_files
                         "spenvis_sao.txt"%string (Int 30)))).
  { apply Hin. intros E. vm_compute in E. discriminate E. }
  split; [exact H2|]. destruct (Hparsed 2%nat H2) as [_ [_ Hle]]. exact Hle.
Defined.

End ScannerLawsExamples.

(** ** What the reported hazard depends on *)

Section ShieldingLaws.

Import Py CalculateThickness.
Local Open Scope float_scope.

Lemma leb_antisym_eqb x y :
  (x <=? y) = true -> (y <=? x) = true -> (x =? y) = true.
Proof.
  rewrite !FloatAxioms.leb_spec, FloatAxioms.eqb_spec. unfold SFleb, SFeqb.
  destruct (SFcompare (Prim2SF x) (Prim2SF y)) as [c|] eqn:E; [|discriminate].
  rewrite (F64Facts.SFcompare_antisym _ _ _ E). destruct c; simpl; congruence.
Qed.

Lemma above_cut_positive e : (0.04 <=? e) = true -> (0 <? e) = true.
Proof.
  intros H. destruct (0 <? e) eqn:E; trivial.
  destruct (F64Facts.leb_ordered _ _ H) as [_ He].
  assert (H0 : F64.ordered 0) by reflexivity.
  pose proof (F64Facts.ltb_false_leb 0 e H0 He E) as Hle.
  pose proof (F64Facts.leb_trans _ _ _ H Hle) as Habs.
  vm_compute in Habs. discriminate.
Qed.

Lemma filter_none {A} (f : A -> bool) (xs : list A) :
  Forall (fun x => f x = false) xs -> filter f xs = [].
Proof.
  induction 1 as [|x xs Hx _ IH]; simpl; trivial. now rewrite Hx.
Qed.

Context `{RT : Runtime}.

(** The shielding row made from a row of the file. *)
Lemma target_data_In (seconds : float) (valid_rows : list FluxRow)
    (row : ShieldingRow) :
  In row (target_data seconds valid_rows)
  <-> In (flux_row row) valid_rows
      /\ (0.04 <=? Energy_MeV row) = true
      /\ row = {| fluence_row :=
                    {| flux_row := flux_row row;
                       ElectronFluence := ElectronFlux row * seconds |};
                  Shielding_g_cm2 := shielding_required (Energy_MeV row);
                  Al_Thickness_mm :=
                    al_thickness_mm (shielding_required (Energy_MeV row)) |}.
Proof.
  rewrite target_data_rows, in_map_iff. split.
  - intros (r & <- & Hr). apply filter_In in Hr as [Hin Hcut]. simpl. auto.
  - intros (Hin & Hcut & E). exists (flux_row row). split.
    + symmetry. exact E.
    + now apply filter_In.
Qed.

Lemma target_data_incl (seconds : float) (rows1 rows2 : list FluxRow) :
  (forall r, In r rows1 -> In r rows2) ->
  forall row, In row (target_data seconds rows1) ->
              In row (target_data seconds rows2).
Proof.
  intros Hincl row. rewrite !target_data_In. intros (Hin & Hcut & E). auto.
Qed.

Lemma hazardous_incl (seconds : float) (rows1 rows2 : list FluxRow) :
  (forall r, In r rows1 -> In r rows2) ->
  forall row,
    In row (hazardous_energies (target_data seconds rows1)) ->
    In row (hazardous_energies (target_data seconds rows2)).
Proof.
  intros Hincl row Hin. apply filter_In in Hin as [Hin Hhaz].
  apply filter_In. split; trivial. now apply (target_data_incl _ rows1).
Qed.

(** The selection when a hazardous row exists: a hazardous row of the
    largest energy, and the thickness computed from that energy. *)
Lemma hazard_selection_value (seconds : float)
    (valid_rows : list FluxRow) (row0 : ShieldingRow) :
  In row0 (hazardous_energies (target_data seconds valid_rows)) ->
  exists row,
    In row (hazardous_energies (target_data seconds valid_rows))
    /\ (0.04 <=? Energy_MeV row) = true
    /\ (forall row',
          In row' (hazardous_energies (target_data seconds valid_rows)) ->
          (Energy_MeV row' <=? Energy_MeV row) = true)
    /\ hazard_selection (target_data seconds valid_rows)
       = inr (Energy_MeV row,
              al_thickness_mm (shielding_required (Energy_MeV row))).
Proof.
  intros H0.
  destruct (hazard_selection_max _
              (target_data_ordered seconds valid_rows) row0 H0)
    as (row & Hrow & Hmax & Heq & Hsel).
  assert (Hin : In row (target_data seconds valid_rows))
    by (apply filter_In in Hrow; apply Hrow).
  apply target_data_In in Hin as (_ & Hcut & E).
  exists row. repeat split; trivial.
  rewrite Hsel, <- (eqb_eq_above_cut _ _ Hcut Heq).
  f_equal. f_equal. rewrite E. reflexivity.
Qed.

(** Inside a run the guard [e_mev > 0] of the range formula always holds:
    every energy that reaches it passed the cut at 0.04.  The branch
    [r = 0.0] is never taken, and the range of every row is the power law
    below 2.5 MeV and the linear law from 2.5 MeV on. *)
Theorem log_guard_always_holds (seconds : float)
    (valid_rows : list FluxRow) (row : ShieldingRow) :
  In row (target_data seconds valid_rows) ->
  (0 <? Energy_MeV row) = true
  /\ Shielding_g_cm2 row
     = (if Energy_MeV row <? 2.5
        then 0.412 * py_pow (Energy_MeV row)
                            (1.265 - 0.0954 * np_log (Energy_MeV row))
        else 0.530 * Energy_MeV row - 0.106).
Proof.
  intros Hin. apply target_data_In in Hin as (_ & Hcut & E).
  pose proof (above_cut_positive _ Hcut) as Hpos. split; trivial.
  rewrite E. simpl. unfold shielding_required. now rewrite Hpos.
Qed.

(** Rows whose energy fails the test [>= 0.04] (an energy below 0.04 or a
    NaN), wherever they stand in the table and whatever their flux, change
    nothing of what is reported: the frame, the printed values and the curve
    are those of the table without them. *)
Theorem rows_below_cut_ignored (mission_duration_days : num) (seconds : float)
    (before low after : list FluxRow) :
  Forall (fun r : FluxRow => (0.04 <=? Energy_MeV r) = false) low ->
  target_data seconds (before ++ low ++ after)
  = target_data seconds (before ++ after)
  /\ shielding_report mission_duration_days (before ++ low ++ after)
     = shielding_report mission_duration_days (before ++ after).
Proof.
  intros Hlow.
  assert (E : forall s, target_data s (before ++ low ++ after)
                        = target_data s (before ++ after)).
  { intros s. rewrite !target_data_rows, !filter_app.
    now rewrite (filter_none _ low Hlow). }
  split; [apply E|]. unfold shielding_report.
  destruct (to_float _) as [e|s]; trivial. now rewrite E.
Qed.

(** The reported hazard energy and raw thickness depend on which rows the
    table holds, not on their order or on repetitions: two tables with the
    same rows give the same pair.  The pair is the fallback or an energy
    with the thickness computed from it, so that which of several rows of
    the largest energy [.values[0]] picks makes no difference. *)
Theorem hazard_selection_set (seconds : float)
    (rows1 rows2 : list FluxRow) :
  (forall r, In r rows1 <-> In r rows2) ->
  hazard_selection (target_data seconds rows1)
  = hazard_selection (target_data seconds rows2)
  /\ exists max_hazard_energy design_thickness,
       hazard_selection (target_data seconds rows1)
       = inr (max_hazard_energy, design_thickness)
       /\ ((max_hazard_energy = 0.5 /\ design_thickness = 2.0)
           \/ design_thickness
              = al_thickness_mm (shielding_required max_hazard_energy)).
Proof.
  intros Hsame.
  assert (H12 : forall r, In r rows1 -> In r rows2) by (intros r; apply Hsame).
  assert (H21 : forall r, In r rows2 -> In r rows1) by (intros r; apply Hsame).
  destruct (hazardous_energies (target_data seconds rows1))
    as [|h1 hz1] eqn:E1.
  - assert (E2 : hazardous_energies (target_data seconds rows2) = []).
    { destruct (hazardous_energies (target_data seconds rows2))
        as [|h2 hz2] eqn:E2; trivial.
      assert (Hh : In h2 (hazardous_energies (target_data seconds rows1))).
      { apply (hazardous_incl _ rows2); trivial. rewrite E2. now left. }
      rewrite E1 in Hh. destruct Hh. }
    unfold hazard_selection. rewrite E1, E2. split; [reflexivity|].
    exists 0.5, 2.0. auto.
  - assert (Hh1 : In h1 (hazardous_energies (target_data seconds rows1)))
      by (rewrite E1; now left).
    destruct (hazard_selection_value _ _ _ Hh1)
      as (r1 & Hr1 & Hcut1 & Hmax1 & Hsel1).
    destruct (hazard_selection_value _ _ _ (hazardous_incl _ _ _ H12 _ Hh1))
      as (r2 & Hr2 & Hcut2 & Hmax2 & Hsel2).
    assert (Ee : Energy_MeV r1 = Energy_MeV r2).
    { apply eqb_eq_above_cut; trivial. apply leb_antisym_eqb.
      - apply Hmax2. now apply (hazardous_incl _ rows1).
      - apply Hmax1. now apply (hazardous_incl _ rows2). }
    rewrite Hsel1, Hsel2, Ee. split; [reflexivity|]. eauto.
Qed.

(** Once a table holds a hazardous row, more rows never lower the reported
    hazard energy. *)
Theorem hazard_energy_monotone (seconds : float)
    (rows more : list FluxRow) (row0 : ShieldingRow) :
  In row0 (hazardous_energies (target_data seconds rows)) ->
  (forall r, In r rows -> In r more) ->
  exists e t e' t',
    hazard_selection (target_data seconds rows) = inr (e, t)
    /\ hazard_selection (target_data seconds more) = inr (e', t')
    /\ (e <=? e') = true.
Proof.
  intros H0 Hincl.
  destruct (hazard_selection_value _ _ _ H0)
    as (r1 & Hr1 & _ & _ & Hsel1).
  destruct (hazard_selection_value _ _ _ (hazardous_incl _ _ _ Hincl _ H0))
    as (r2 & _ & _ & Hmax2 & Hsel2).
  do 4 eexists. split; [exact Hsel1|]. split; [exact Hsel2|].
  apply Hmax2. now apply (hazardous_incl _ rows).
Qed.

End ShieldingLaws.

Section ShieldingLawsExamples.

Import Py CalculateThickness Sample.
Local Open Scope float_scope.

Lemma log_guard_always_holds_witness :
  exists row,
    nth_error (target_data 2592000 (scan_lines table)) 0 = Some row
    /\ (0 <? Energy_MeV row) = true
    /\ Shielding_g_cm2 row = 0.530 * 3 - 0.106.
Proof.
  destruct (nth_error (target_data 2592000 (scan_lines table)) 0)
    as [row|] eqn:E; [|vm_compute in E; discriminate E].
  exists row. split; trivial.
  destruct (log_guard_always_holds (RT := runtime) 2592000 (scan_lines table)
              row (nth_error_In _ _ E)) as [Hpos Hr].
  split; trivial. rewrite Hr.
  vm_compute in E. injection E as <-. reflexivity.
Defined.

Lemma rows_below_cut_ignored_witness :
  shielding_report (Int 30)
    (scan_lines table
     ++ [ {| Energy_MeV := 0.01; ElectronFlux := 1e30 |};
          {| Energy_MeV := nan; ElectronFlux := 1e30 |} ] ++ [])
  = shielding_report (Int 30) (scan_lines table ++ []).
Proof.
  apply (rows_below_cut_ignored (RT := runtime) (Int 30) 2592000
           (scan_lines table)
           [ {| Energy_MeV := 0.01; ElectronFlux := 1e30 |};
             {| Energy_MeV := nan; ElectronFlux := 1e30 |} ] []).
  repeat constructor.
Defined.

Lemma hazard_selection_set_witness :
  hazard_selection (target_data 2592000 (scan_lines table))
  = hazard_selection
      (target_data 2592000 (rev (scan_lines table) ++ scan_lines table)).
Proof.
  apply (hazard_selection_set (RT := runtime) 2592000 (scan_lines table)
           (rev (scan_lines table) ++ scan_lines table)).
  intros r. vm_compute. tauto.
Defined.

Lemma hazard_energy_monotone_witness :
  exists e t e' t',
    hazard_selection (target_data 2592000 (scan_lines table)) = inr (e, t)
    /\ hazard_selection
         (target_data 2592000
            (scan_lines table
             ++ [ {| Energy_MeV := 10; ElectronFlux := 1000000 |} ]))
       = inr (e', t')
    /\ (e <=? e') = true.
Proof.
  destruct (nth_error (hazardous_energies
                         (target_data 2592000 (scan_lines table))) 0)
    as [row0|] eqn:E; [|vm_compute in E; discriminate E].
  apply (hazard_energy_monotone (RT := runtime) 2592000 (scan_lines table) _
           row0 (nth_error_In _ _ E)).
  intros r Hr. apply in_or_app. now left.
Defined.

End ShieldingLawsExamples.
